(** * minecraft-bedrock-mcp-server: the build_cube and world tools

    A shallow embedding of [BuildCubeTool.execute] and [WorldTool.execute]
    (with [getTimeDescription] and [normalizeWeatherType]) and the properties
    of the region build engine stated over it.

    Modelling conventions.
    - A finite JS [number] is a rational ([Q]): every finite double is one, and
      [Math.floor] is exact on them.  Floored coordinates are integers ([Z]).
      The interior corners of a hollow build and the numbers printed in a
      message go through [round64], the binary64 rounding, which is the
      identity up to 2^53; the guards compare exact values, which decides
      as the binary64 comparison does.  The affected counts a gateway
      reports are block counts, and their difference is the exact one.
      [NaN] and the infinities are outside the model.
    - A JS string is a [string]; [toLowerCase] is modelled on the ASCII
      letters, which is all the comparisons of the code can observe.
    - An [async] function is a tree of awaited gateway calls: a leaf is the
      value the promise resolves to or the exception it rejects with, a node
      is one awaited call whose continuation receives what the gateway
      settled the call with.  [run] plays such a tree against an arbitrary
      gateway and records the calls issued. *)

From Stdlib Require Import ZArith QArith Qround String Ascii List Bool Lia.
From Stdlib Require Import DecimalString Lqa.
Import ListNotations.

Local Open Scope string_scope.
Local Open Scope Z_scope.

(** ** JS helpers *)

(** The binary64 number nearest to the integer [n], ties to the even
    significand: what an addition or subtraction of integer-valued numbers
    gives for the exact result [n].  The identity up to 2^53; magnitudes of
    2^1024 and more (the infinities) are outside the model. *)
Definition round64 (n : Z) : Z :=
  let m := Z.abs n in
  let e := Z.log2 m + 1 in
  if e <=? 53 then n
  else
    let shift := e - 53 in
    let q := Z.shiftr m shift in
    let r := m - Z.shiftl q shift in
    let half := Z.shiftl 1 (shift - 1) in
    let q' := if (half <? r) || ((r =? half) && Z.odd q) then q + 1 else q in
    Z.sgn n * Z.shiftl q' shift.

Definition decimal (m : Z) : string := NilZero.string_of_int (Z.to_int m).

(** The digits of Number::toString: the least [k] for which some [s] of [k]
    digits has [s * 10^p] read back as [x], and then the [s] nearest to [x].
    [d] is the number of digits of [x], which is positive. *)
Fixpoint shortest_digits (x d k : Z) (fuel : nat) : Z * Z :=
  match fuel with
  | O => (x, 0)
  | S fuel' =>
      let p := d - k in
      if p <=? 0 then (x, 0)
      else
        let s := (x + 10 ^ p / 2) / 10 ^ p in
        if round64 (s * 10 ^ p) =? x then (s, p)
        else shortest_digits x d (k + 1) fuel'
  end.

(** [s * 10^p] with the zeros at the end of [s] moved into [p]. *)
Fixpoint strip_zeros (s p : Z) (fuel : nat) : Z * Z :=
  match fuel with
  | O => (s, p)
  | S fuel' =>
      if (0 <? s) && (s mod 10 =? 0) then strip_zeros (s / 10) (p + 1) fuel'
      else (s, p)
  end.

(** Number::toString of a positive integer-valued number: plain digits up
    to 21 of them, the exponent form from there. *)
Definition string_of_positive (x : Z) : string :=
  let d := Z.of_nat (String.length (decimal x)) in
  let (s0, p0) := shortest_digits x d 1 17 in
  let (s, p) := strip_zeros s0 p0 400 in
  let k := Z.of_nat (String.length (decimal s)) in
  let n := k + p in
  if n <=? 21 then decimal (s * 10 ^ p)
  else
    match decimal s with
    | EmptyString => EmptyString
    | String first rest =>
        (if k =? 1 then String first EmptyString
         else String first ("." ++ rest))
        ++ "e+" ++ decimal (n - 1)
    end.

(** [`${n}`] for an integer-valued number: the number is the binary64 one
    nearest to [n]. *)
Definition string_of_Z (n : Z) : string :=
  let x := round64 n in
  if x =? 0 then "0"
  else if x <? 0 then "-" ++ string_of_positive (- x)
  else string_of_positive x.

(** [s.includes(sub)] *)
Fixpoint includes (sub s : string) : bool :=
  if String.prefix sub s then true
  else match s with
       | EmptyString => false
       | String _ rest => includes sub rest
       end.

(** One character of [s.toLowerCase()]. *)
Definition lower_ascii (c : ascii) : ascii :=
  let n := nat_of_ascii c in
  if (Nat.leb 65 n && Nat.leb n 90)%bool then ascii_of_nat (n + 32) else c.

Fixpoint toLowerCase (s : string) : string :=
  match s with
  | EmptyString => EmptyString
  | String c rest => String (lower_ascii c) (toLowerCase rest)
  end.

(** A destructuring default: [{ f = d } = args]. *)
Definition default {A : Type} (d : A) (o : option A) : A :=
  match o with
  | Some v => v
  | None => d
  end.

(** ** Exceptions and promises *)

(** What a [catch (error)] clause can receive: an [Error] object, of which
    the code reads [error.message], or any other value, of which it takes
    [String(error)]. *)
Inductive thrown : Type :=
| ErrorObject (message : string)
| OtherValue (rendering : string).

(** [error instanceof Error ? error.message : String(error)] *)
Definition error_text (error : thrown) : string :=
  match error with
  | ErrorObject message => message
  | OtherValue rendering => rendering
  end.

Inductive settled (A : Type) : Type :=
| Fulfilled (value : A)
| Rejected (error : thrown).
Arguments Fulfilled {A} value.
Arguments Rejected {A} error.

Section Async.
Context {call : Type} {reply : call -> Type}.

Inductive async (A : Type) : Type :=
| Return (value : A)
| Throw (error : thrown)
| Await (c : call) (k : settled (reply c) -> async A).
Arguments Return {A} value.
Arguments Throw {A} error.
Arguments Await {A} c k.

(** [await c]: a rejection of the awaited promise is thrown at the call. *)
Definition await (c : call) : async (reply c) :=
  Await c (fun r => match r with
                    | Fulfilled v => Return v
                    | Rejected e => Throw e
                    end).

Fixpoint bind {A B : Type} (m : async A) (f : A -> async B) : async B :=
  match m with
  | Return v => f v
  | Throw e => Throw e
  | Await c k => Await c (fun r => bind (k r) f)
  end.

(** [try { body } catch (error) { handler }] *)
Fixpoint try_catch {A : Type} (body : async A) (handler : thrown -> async A)
  : async A :=
  match body with
  | Return v => Return v
  | Throw e => handler e
  | Await c k => Await c (fun r => try_catch (k r) handler)
  end.

(** One gateway call and what it was settled with. *)
Inductive event : Type :=
| Called (c : call) (r : settled (reply c)).

Definition call_of (ev : event) : call :=
  match ev with
  | Called c _ => c
  end.

(** The remote side: any state, any answer to any call. *)
Record gateway : Type := Gateway {
  gw_state : Type;
  gw_respond : forall c : call, gw_state -> settled (reply c) * gw_state
}.

Fixpoint run {A : Type} (g : gateway) (p : async A) (s : gw_state g)
  : list event * settled A :=
  match p with
  | Return v => ([], Fulfilled v)
  | Throw e => ([], Rejected e)
  | Await c k =>
      let (r, s') := gw_respond g c s in
      let (trace, out) := run g (k r) s' in
      (Called c r :: trace, out)
  end.

Definition trace_of {A : Type} (g : gateway) (p : async A) (s : gw_state g)
  : list event := fst (run g p s).

Definition outcome_of {A : Type} (g : gateway) (p : async A) (s : gw_state g)
  : settled A := snd (run g p s).
End Async.

Arguments async {call} reply A.
Arguments Return {call reply A} value.
Arguments Throw {call reply A} error.
Arguments Await {call reply A} c k.
Arguments gateway {call} reply.
Arguments event {call} reply.

(** What a call was rejected with, if it was. *)
Definition rejection {call : Type} {reply : call -> Type}
    (ev : event reply) : option thrown :=
  match ev with
  | Called _ (Rejected e) => Some e
  | Called _ (Fulfilled _) => None
  end.

(** Some call of the trace was rejected with [e]. *)
Definition rejected_with {call : Type} {reply : call -> Type}
    (e : thrown) (trace : list (event reply)) : Prop :=
  In (Some e) (map rejection trace).

(** The programs that only await calls and return: nothing is thrown but
    the rejection of an awaited call, and nothing is caught. *)
Inductive plain {call : Type} {reply : call -> Type} {A : Type}
  : async reply A -> Prop :=
| plain_Return (v : A) : plain (Return v)
| plain_Await (c : call) (k : settled (reply c) -> async reply A) :
    (forall e, k (Rejected e) = Throw e) ->
    (forall v, plain (k (Fulfilled v))) ->
    plain (Await c k).

Declare Scope async_scope.
Delimit Scope async_scope with async.
Notation "x <- m ;; k" := (bind m (fun x => k))
  (at level 61, m at next level, right associativity) : async_scope.

(** [ToolCallResult] of [types.ts], as the object literals of the tools
    build it. *)
Record ToolCallResult (D : Type) : Type := {
  success : bool;
  message : string;
  data : option D
}.
Arguments success {D} _.
Arguments message {D} _.
Arguments data {D} _.

(** The socket-be [World] object behind [this.world]: the properties the
    tools read from it.  Its methods are the gateway calls. *)
Module world.
Record t : Type := make {
  name : string;
  connectedAt : Q;
  averagePing : Q;
  maxPlayers : Q;
  isValid : bool
}.
End world.

(** ** build_cube *)

Module BuildCube.

(** The arguments of [execute]; the six coordinates are required, the other
    fields may be omitted. *)
Module args.
Record t : Type := make {
  action : option string;
  x1 : Q; y1 : Q; z1 : Q;
  x2 : Q; y2 : Q; z2 : Q;
  material : option string;
  hollow : option bool
}.
End args.

(** The [coords] object: the floored coordinates. *)
Module coords.
Record t : Type := make {
  x1 : Z; y1 : Z; z1 : Z;
  x2 : Z; y2 : Z; z2 : Z
}.
End coords.

(** A block position [{x, y, z}]. *)
Record Vector3 : Type := vec { vx : Z; vy : Z; vz : Z }.

(** The [data] of a successful build. *)
Module cube.
Record t : Type := make {
  type : string;
  from : Vector3;
  to : Vector3;
  material : string;
  hollow : bool;
  volume : Z;
  apiUsed : string
}.
End cube.

Definition Result : Type := ToolCallResult cube.t.

Section Tool.
(** [BaseTool.createErrorResponse], inherited by the tool. *)
Variable createErrorResponse : string -> Result.

(** The only gateway call of the tool:
    [world.fillBlocks(from, to, blockId)], resolving to the number of
    blocks affected. *)
Inductive call : Type :=
| fillBlocks (world : world.t) (from to : Vector3) (blockId : string).

Definition reply (c : call) : Type := Z.

(** [const coords = { x1: Math.floor(x1), ... }] *)
Definition floor_coords (a : args.t) : coords.t :=
  {| coords.x1 := Qfloor (args.x1 a);
     coords.y1 := Qfloor (args.y1 a);
     coords.z1 := Qfloor (args.z1 a);
     coords.x2 := Qfloor (args.x2 a);
     coords.y2 := Qfloor (args.y2 a);
     coords.z2 := Qfloor (args.z2 a) |}.

(** [coords.y1 < -64 || coords.y1 > 320 || coords.y2 < -64 || coords.y2 > 320] *)
Definition y_out_of_range (c : coords.t) : bool :=
  (coords.y1 c <? -64) || (coords.y1 c >? 320)
  || (coords.y2 c <? -64) || (coords.y2 c >? 320).

(** [Math.abs(x2 - x1 + 1) * Math.abs(y2 - y1 + 1) * Math.abs(z2 - z1 + 1)] *)
Definition volume (c : coords.t) : Z :=
  Z.abs (coords.x2 c - coords.x1 c + 1)
  * Z.abs (coords.y2 c - coords.y1 c + 1)
  * Z.abs (coords.z2 c - coords.z1 c + 1).

(** [let blockId = material; if (!blockId.includes(':')) blockId = `minecraft:${blockId}`] *)
Definition normalize_blockId (material : string) : string :=
  if negb (includes ":" material) then "minecraft:" ++ material else material.

Definition corner1 (c : coords.t) : Vector3 :=
  vec (coords.x1 c) (coords.y1 c) (coords.z1 c).
Definition corner2 (c : coords.t) : Vector3 :=
  vec (coords.x2 c) (coords.y2 c) (coords.z2 c).

(** [{x: innerX1, y: innerY1, z: innerZ1}] and [{x: innerX2, ...}], with
    [innerX1 = Math.min(coords.x1, coords.x2) + 1] and
    [innerX2 = Math.max(coords.x1, coords.x2) - 1]: the sum and the
    difference are binary64 ones. *)
Definition inner1 (c : coords.t) : Vector3 :=
  vec (round64 (Z.min (coords.x1 c) (coords.x2 c) + 1))
      (round64 (Z.min (coords.y1 c) (coords.y2 c) + 1))
      (round64 (Z.min (coords.z1 c) (coords.z2 c) + 1)).
Definition inner2 (c : coords.t) : Vector3 :=
  vec (round64 (Z.max (coords.x1 c) (coords.x2 c) - 1))
      (round64 (Z.max (coords.y1 c) (coords.y2 c) - 1))
      (round64 (Z.max (coords.z1 c) (coords.z2 c) - 1)).

(** [innerX1 <= innerX2 && innerY1 <= innerY2 && innerZ1 <= innerZ2] *)
Definition has_interior (c : coords.t) : bool :=
  (vx (inner1 c) <=? vx (inner2 c))
  && (vy (inner1 c) <=? vy (inner2 c))
  && (vz (inner1 c) <=? vz (inner2 c)).

Definition show_vec (v : Vector3) : string :=
  "(" ++ string_of_Z (vx v) ++ "," ++ string_of_Z (vy v) ++ ","
      ++ string_of_Z (vz v) ++ ")".

(** The object returned after the fills. *)
Definition built (c : coords.t) (blockId : string) (hollow : bool)
    (blocksPlaced : Z) : Result :=
  {| success := true;
     message := (if hollow then "Hollow" else "Solid") ++ " cube built with "
                ++ blockId ++ " from " ++ show_vec (corner1 c) ++ " to "
                ++ show_vec (corner2 c) ++ ". Placed "
                ++ string_of_Z blocksPlaced ++ " blocks.";
     data := Some {| cube.type := "cube";
                     cube.from := corner1 c;
                     cube.to := corner2 c;
                     cube.material := blockId;
                     cube.hollow := hollow;
                     cube.volume := blocksPlaced;
                     cube.apiUsed := "Socket-BE" |} |}.

Definition failure (msg : string) : Result :=
  {| success := false; message := msg; data := None |}.

Local Open Scope async_scope.

(** [await this.world.fillBlocks(from, to, blockId)] *)
Definition await_fillBlocks (world : world.t) (from to : Vector3)
    (blockId : string) : async reply Z :=
  await (reply := reply) (fillBlocks world from to blockId).

(** The fills of the inner [try] block, and the final [blocksPlaced]. *)
Definition fills (world : world.t) (c : coords.t) (blockId : string)
    (hollow : bool) : async reply Z :=
  if hollow then
    blocksPlaced <- await_fillBlocks world (corner1 c) (corner2 c) blockId ;;
    if has_interior c then
      removedBlocks <- await_fillBlocks world (inner1 c) (inner2 c)
                                        "minecraft:air" ;;
      Return (blocksPlaced - removedBlocks)
    else Return blocksPlaced
  else
    blocksPlaced <- await_fillBlocks world (corner1 c) (corner2 c) blockId ;;
    Return blocksPlaced.

(** [BuildCubeTool.execute] *)
Definition execute (this_world : option world.t) (a : args.t)
  : async reply Result :=
  try_catch
    (let action := default "build" (args.action a) in
     let material := default "minecraft:stone" (args.material a) in
     let hollow := default false (args.hollow a) in
     if negb (action =? "build")%string then
       Return (createErrorResponse
                 ("Unknown action: " ++ action
                  ++ ". Only 'build' is supported."))
     else
       let c := floor_coords a in
       if y_out_of_range c then
         Return (failure "Y coordinates must be between -64 and 320")
       else if volume c >? 32768 then
         Return (failure "Volume too large (maximum 32768 blocks)")
       else
         match this_world with
         | None =>
             Return (failure
                       "World not available. Ensure Minecraft is connected.")
         | Some world =>
             let blockId := normalize_blockId material in
             try_catch
               (blocksPlaced <- fills world c blockId hollow ;;
                Return (built c blockId hollow blocksPlaced))
               (fun error =>
                  Return (failure ("Building error: " ++ error_text error)))
         end)
    (fun error =>
       Return (failure ("Error building cube: " ++ error_text error))).

End Tool.
End BuildCube.

(** ** world *)

Module WorldTool.

(** [WeatherType] of socket-be. *)
Module WeatherType.
Inductive t : Type := Clear | Rain | Thunder.
End WeatherType.

(** A socket-be [Player], as far as [get_players] reads it. *)
Module player.
Record t : Type := make { name : string; isLocalPlayer : bool }.
End player.

Definition Qlt_bool (a b : Q) : bool := negb (Qle_bool b a).

(** [WorldTool.getTimeDescription] *)
Definition getTimeDescription (ticks : Q) : string :=
  if Qle_bool 0 ticks && Qlt_bool ticks 1000 then "Dawn"
  else if Qle_bool 1000 ticks && Qlt_bool ticks 5000 then "Morning"
  else if Qle_bool 5000 ticks && Qlt_bool ticks 7000 then "Noon"
  else if Qle_bool 7000 ticks && Qlt_bool ticks 11000 then "Afternoon"
  else if Qle_bool 11000 ticks && Qlt_bool ticks 13000 then "Dusk"
  else if Qle_bool 13000 ticks && Qlt_bool ticks 17000 then "Night"
  else if Qle_bool 17000 ticks && Qlt_bool ticks 19000 then "Midnight"
  else "Late Night".

(** [WorldTool.normalizeWeatherType] *)
Definition normalizeWeatherType (weather : string) : WeatherType.t :=
  let w := toLowerCase weather in
  if (w =? "clear")%string then WeatherType.Clear
  else if (w =? "rain")%string then WeatherType.Rain
  else if (w =? "thunder")%string then WeatherType.Thunder
  else WeatherType.Clear.

(** JS truthiness of an optional string and of an optional number. *)
Definition truthy_string (o : option string) : bool :=
  match o with
  | Some s => negb (s =? "")%string
  | None => false
  end.

Definition truthy_number (o : option Q) : bool :=
  match o with
  | Some n => negb (Qeq_bool n 0)
  | None => false
  end.

(** The arguments of [execute]; only [action] is required.  [S] is the
    [SequenceStep] type of [BaseTool]. *)
Module args.
Record t (S : Type) : Type := make {
  action : string;
  time : option Q;
  weather : option string;
  duration : option Q;
  message : option string;
  target : option string;
  command : option string;
  steps : option (list S)
}.
Arguments make {S}.
Arguments action {S}.
Arguments time {S}.
Arguments weather {S}.
Arguments duration {S}.
Arguments message {S}.
Arguments target {S}.
Arguments command {S}.
Arguments steps {S}.
End args.

(** [{ name: p.name, isLocal: p.isLocalPlayer }] *)
Record playerInfo : Type := { info_name : string; info_isLocal : bool }.

(** What the [result] variable of [execute] can hold; [C] is what
    [runCommand] resolves to. *)
Inductive result (C : Type) : Type :=
| undefined
| timeResult (timeOfDay day totalTicks : Q) (description : string)
| dayResult (day : Q)
| weatherResult (weather : WeatherType.t)
| playersResult (players : list playerInfo)
| worldInfo (name : string) (connectedAt averagePing maxPlayers : Q)
            (isValid : bool)
| commandResult (r : C)
| connectionInfo (averagePing connectedAt maxPlayers : Q) (isValid : bool).
Arguments undefined {C}.
Arguments timeResult {C}.
Arguments dayResult {C}.
Arguments weatherResult {C}.
Arguments playersResult {C}.
Arguments worldInfo {C}.
Arguments commandResult {C}.
Arguments connectionInfo {C}.

(** The [data] of a successful world action. *)
Module data.
Record t (C : Type) : Type := make {
  action : string;
  result : WorldTool.result C;
  timestamp : Q
}.
Arguments make {C}.
Arguments action {C}.
Arguments result {C}.
Arguments timestamp {C}.
End data.

(** The methods of [this.world] that [execute] awaits. *)
Inductive call : Type :=
| setTimeOfDay (world : world.t) (time : Q)
| getTimeOfDay (world : world.t)
| getDay (world : world.t)
| getCurrentTick (world : world.t)
| setWeather (world : world.t) (weatherType : WeatherType.t)
             (duration : option Q)
| getWeather (world : world.t)
| getPlayers (world : world.t)
| sendMessage (world : world.t) (message : string) (target : option string)
| runCommand (world : world.t) (command : string).

Definition dquote : string := String (ascii_of_nat 34) EmptyString.

Section Tool.
(** Outside the tool: the step type of [BaseTool] sequences, what
    [runCommand] resolves to, the rendering of a number and of a weather
    type in a template literal, and the clock read by [Date.now()]. *)
Variable SequenceStep : Type.
Variable CommandResult : Type.
Variable string_of_number : Q -> string.
Variable string_of_weather : WeatherType.t -> string.
Variable Date_now : Q.

Definition reply (c : call) : Type :=
  match c with
  | setTimeOfDay _ _ => unit
  | getTimeOfDay _ => Q
  | getDay _ => Q
  | getCurrentTick _ => Q
  | setWeather _ _ _ => unit
  | getWeather _ => WeatherType.t
  | getPlayers _ => list player.t
  | sendMessage _ _ _ => unit
  | runCommand _ _ => CommandResult
  end.

Definition Result : Type := ToolCallResult (data.t CommandResult).

(** [BaseTool.createErrorResponse] and [BaseTool.executeSequence],
    inherited by the tool. *)
Variable createErrorResponse : string -> Result.
Variable executeSequence : list SequenceStep -> async reply Result.

Definition failure (msg : string) : Result :=
  {| success := false; message := msg; data := None |}.

(** The [return] after the [switch]. *)
Definition succeed (action : string) (res : result CommandResult)
    (msg : string) : async reply Result :=
  Return {| success := true;
            message := msg;
            data := Some {| data.action := action;
                            data.result := res;
                            data.timestamp := Date_now |} |}.

Definition await_world (c : call) : async reply (reply c) :=
  await (reply := reply) c.

Local Open Scope async_scope.

(** The [switch (action)] of [execute], inside its [try] block. *)
Definition dispatch (world : world.t) (a : args.t SequenceStep)
  : async reply Result :=
  let action := args.action a in
  if (action =? "set_time")%string then
    match args.time a with
    | None => Return (failure "Time required for set_time")
    | Some time =>
        _ <- await_world (setTimeOfDay world time) ;;
        let timeDesc := getTimeDescription time in
        succeed action undefined
          ("Time set to " ++ string_of_number time ++ " ticks ("
           ++ timeDesc ++ ")")
    end
  else if (action =? "get_time")%string then
    currentTime <- await_world (getTimeOfDay world) ;;
    currentDay <- await_world (getDay world) ;;
    currentTick <- await_world (getCurrentTick world) ;;
    succeed action
      (timeResult currentTime currentDay currentTick
                  (getTimeDescription currentTime))
      ("Current time: " ++ string_of_number currentTime ++ " ticks ("
       ++ getTimeDescription currentTime ++ ") on day "
       ++ string_of_number currentDay)
  else if (action =? "get_day")%string then
    day <- await_world (getDay world) ;;
    succeed action (dayResult day)
      ("Current day: " ++ string_of_number day)
  else if (action =? "set_weather")%string then
    if negb (truthy_string (args.weather a)) then
      Return (failure "Weather required for set_weather")
    else
      let weather := default "" (args.weather a) in
      let weatherType := normalizeWeatherType weather in
      _ <- await_world (setWeather world weatherType (args.duration a)) ;;
      succeed action undefined
        (if truthy_number (args.duration a) then
           "Weather set to " ++ weather ++ " for "
           ++ string_of_number (default 0%Q (args.duration a)) ++ " ticks"
         else "Weather set to " ++ weather)
  else if (action =? "get_weather")%string then
    w <- await_world (getWeather world) ;;
    succeed action (weatherResult w)
      ("Current weather: " ++ string_of_weather w)
  else if (action =? "get_players")%string then
    players <- await_world (getPlayers world) ;;
    let playerInfo :=
      map (fun p => {| info_name := player.name p;
                       info_isLocal := player.isLocalPlayer p |}) players in
    succeed action (playersResult playerInfo)
      ("Found " ++ string_of_Z (Z.of_nat (length players))
       ++ " players online")
  else if (action =? "get_world_info")%string then
    succeed action
      (worldInfo (world.name world) (world.connectedAt world)
                 (world.averagePing world) (world.maxPlayers world)
                 (world.isValid world))
      ("World info retrieved: " ++ world.name world)
  else if (action =? "send_message")%string then
    if negb (truthy_string (args.message a)) then
      Return (failure "Message required for send_message")
    else
      let message := default "" (args.message a) in
      _ <- await_world (sendMessage world message (args.target a)) ;;
      succeed action undefined
        (if truthy_string (args.target a) then
           "Message sent to " ++ default "" (args.target a) ++ ": "
           ++ dquote ++ message ++ dquote
         else "Message sent to all players: " ++ dquote ++ message ++ dquote)
  else if (action =? "run_command")%string then
    if negb (truthy_string (args.command a)) then
      Return (failure "Command required for run_command")
    else
      let command := default "" (args.command a) in
      r <- await_world (runCommand world command) ;;
      succeed action (commandResult r) ("Command executed: " ++ command)
  else if (action =? "get_connection_info")%string then
    succeed action
      (connectionInfo (world.averagePing world) (world.connectedAt world)
                      (world.maxPlayers world) (world.isValid world))
      "Connection info retrieved"
  else if (action =? "sequence")%string then
    match args.steps a with
    | None =>
        Return (createErrorResponse
                  "steps array is required for sequence action")
    | Some steps => executeSequence steps
    end
  else Return (failure ("Unknown action: " ++ action)).

(** [WorldTool.execute] *)
Definition execute (this_world : option world.t) (a : args.t SequenceStep)
  : async reply Result :=
  match this_world with
  | None =>
      Return (failure "World not available. Ensure Minecraft is connected.")
  | Some world =>
      try_catch (dispatch world a)
        (fun error =>
           Return (failure ("World management error: "
                            ++ error_text error)))
  end.

End Tool.
End WorldTool.

(** ** Vocabulary of the properties *)

Module BuildCubeSpec.
Import BuildCube.

(** A build request: [action] omitted or ['build']. *)
Definition is_build (a : args.t) : Prop :=
  default "build" (args.action a) = "build".

(** Both floored corners lie in the height band [-64, 320]. *)
Definition in_band (c : coords.t) : Prop :=
  -64 <= coords.y1 c <= 320 /\ -64 <= coords.y2 c <= 320.

(** The request with corner 1 and corner 2 exchanged. *)
Definition swap_corners (a : args.t) : args.t :=
  {| args.action := args.action a;
     args.x1 := args.x2 a; args.y1 := args.y2 a; args.z1 := args.z2 a;
     args.x2 := args.x1 a; args.y2 := args.y1 a; args.z2 := args.z1 a;
     args.material := args.material a;
     args.hollow := args.hollow a |}.

(** A request whose coordinates are the integers of [c]. *)
Definition with_coords (a : args.t) (c : coords.t) : args.t :=
  {| args.action := args.action a;
     args.x1 := inject_Z (coords.x1 c);
     args.y1 := inject_Z (coords.y1 c);
     args.z1 := inject_Z (coords.z1 c);
     args.x2 := inject_Z (coords.x2 c);
     args.y2 := inject_Z (coords.y2 c);
     args.z2 := inject_Z (coords.z2 c);
     args.material := args.material a;
     args.hollow := args.hollow a |}.

(** [n] is the floor of [q]: the integer with [n <= q < n + 1]. *)
Definition is_floor_of (q : Q) (n : Z) : Prop :=
  (inject_Z n <= q)%Q /\ (q < inject_Z (n + 1))%Q.

(** The number of blocks an axis spans, ends included. *)
Definition span (a b : Z) : Z := Z.max a b - Z.min a b + 1.

(** The number of blocks of the region between the two corners. *)
Definition block_count (c : coords.t) : Z :=
  span (coords.x1 c) (coords.x2 c)
  * span (coords.y1 c) (coords.y2 c)
  * span (coords.z1 c) (coords.z2 c).

(** The material the request submits: the given one or the default,
    after the namespace rule. *)
Definition submitted_material (a : args.t) : string :=
  normalize_blockId (default "minecraft:stone" (args.material a)).

(** The two fills a build can issue. *)
Definition outer_fill (world : world.t) (a : args.t) : call :=
  let c := floor_coords a in
  fillBlocks world (corner1 c) (corner2 c) (submitted_material a).

Definition inner_fill (world : world.t) (a : args.t) : call :=
  let c := floor_coords a in
  fillBlocks world (inner1 c) (inner2 c) "minecraft:air".



(** A gateway that settles the calls with the entries of a script, in
    order, and reports nothing affected once the script is used up. *)
Definition scripted : gateway reply :=
  {| gw_state := list (settled Z);
     gw_respond := fun _ s =>
       match s with
       | [] => (Fulfilled 0, [])
       | r :: rest => (r, rest)
       end |}.

Definition request (x1 y1 z1 x2 y2 z2 : Z) (material : option string)
    (hollow : option bool) : args.t :=
  {| args.action := None;
     args.x1 := inject_Z x1; args.y1 := inject_Z y1; args.z1 := inject_Z z1;
     args.x2 := inject_Z x2; args.y2 := inject_Z y2; args.z2 := inject_Z z2;
     args.material := material;
     args.hollow := hollow |}.

Definition a_world : world.t :=
  {| world.name := "world"; world.connectedAt := 0; world.averagePing := 0;
     world.maxPlayers := 10; world.isValid := true |}.

(** The examples of the tool's documentation, and variations. *)
Definition stone_cube : args.t :=
  request 0 64 0 10 74 10 (Some "stone") (Some false).
Definition glass_shell : args.t :=
  request 0 64 0 10 74 10 (Some "glass") (Some true).
Definition below_band : args.t :=
  request 0 (-70) 0 10 74 10 None None.
Definition huge_below_band : args.t :=
  request 0 (-70) 0 100 100 100 None None.
Definition huge : args.t :=
  request 0 0 0 100 100 100 None None.
Definition reversed_slab : args.t :=
  request 1 0 0 0 300 10000 None None.
Definition fractional : args.t :=
  {| args.action := Some "build";
     args.x1 := (-5 # 2)%Q; args.y1 := (129 # 2)%Q; args.z1 := 0;
     args.x2 := (7 # 2)%Q; args.y2 := 70; args.z2 := (9 # 4)%Q;
     args.material := Some "mod:brick";
     args.hollow := None |}.

Definition plain_error (msg : string) : Result := failure msg.
End BuildCubeSpec.

Module WorldToolSpec.
Import WorldTool.

(** The weather strings the tool tells apart, case ignored. *)
Definition same_ignoring_case (a b : string) : Prop :=
  toLowerCase a = toLowerCase b.

(** A gateway that rejects every call with an [Error] of the given
    message. *)
Definition failing (C : Type) (msg : string) : gateway (reply C) :=
  {| gw_state := unit;
     gw_respond := fun _ s => (Rejected (ErrorObject msg), s) |}.

(** A gateway that fulfils every call: noon of day 3, clear weather, one
    local player. *)
Definition calm : gateway (reply unit) :=
  {| gw_state := unit;
     gw_respond := fun c s =>
       (match c return settled (reply unit c) with
        | setTimeOfDay _ _ => Fulfilled tt
        | getTimeOfDay _ => Fulfilled 6000%Q
        | getDay _ => Fulfilled 3%Q
        | getCurrentTick _ => Fulfilled 78000%Q
        | setWeather _ _ _ => Fulfilled tt
        | getWeather _ => Fulfilled WeatherType.Clear
        | getPlayers _ =>
            Fulfilled [ {| player.name := "Steve";
                           player.isLocalPlayer := true |} ]
        | sendMessage _ _ _ => Fulfilled tt
        | runCommand _ _ => Fulfilled tt
        end, s) |}.

Definition action_only (action : string) : args.t unit :=
  {| args.action := action; args.time := None; args.weather := None;
     args.duration := None; args.message := None; args.target := None;
     args.command := None; args.steps := None |}.

Definition set_weather (weather : string) (duration : option Q)
  : args.t unit :=
  {| args.action := "set_weather"; args.time := None;
     args.weather := Some weather; args.duration := duration;
     args.message := None; args.target := None;
     args.command := None; args.steps := None |}.

Definition plain_error (msg : string) : Result unit := failure unit msg.
Definition no_sequence (steps : list unit)
  : async (reply unit) (Result unit) :=
  Return (failure unit "sequences are not run here").
Definition show_weather (w : WeatherType.t) : string :=
  match w with
  | WeatherType.Clear => "clear"
  | WeatherType.Rain => "rain"
  | WeatherType.Thunder => "thunder"
  end.
Definition show_number (q : Q) : string := string_of_Z (Qfloor q).
End WorldToolSpec.

(** ** The sequence step of the world tool *)

Module WorldStep.
Import WorldTool.

(** The own properties of a step that [execute] reads once the step is
    spread into its arguments: [{ action: step.type, ...step }]. *)
Module props.
Record t (S : Type) : Type := make {
  action : option string;
  time : option Q;
  weather : option string;
  duration : option Q;
  message : option string;
  target : option string;
  command : option string;
  steps : option (list S)
}.
Arguments make {S}.
Arguments action {S}.
Arguments time {S}.
Arguments weather {S}.
Arguments duration {S}.
Arguments message {S}.
Arguments target {S}.
Arguments command {S}.
Arguments steps {S}.
End props.

Section Tool.
Variable SequenceStep : Type.
Variable CommandResult : Type.
Variable string_of_number : Q -> string.
Variable string_of_weather : WeatherType.t -> string.
Variable Date_now : Q.
Variable createErrorResponse : string -> Result CommandResult.
Variable executeSequence :
  list SequenceStep -> async (reply CommandResult) (Result CommandResult).

(** [SequenceStep] is declared with [BaseTool]: its [type], its other own
    properties, and the step method of the base class. *)
Variable step_type : SequenceStep -> string.
Variable step_props : SequenceStep -> props.t SequenceStep.
Variable super_executeSequenceStep :
  SequenceStep -> Z -> async (reply CommandResult) (Result CommandResult).

(** [{ action: step.type, ...step }]: a property of the step replaces the
    one written before the spread. *)
Definition worldArgs (step : SequenceStep) : args.t SequenceStep :=
  {| args.action := default (step_type step) (props.action (step_props step));
     args.time := props.time (step_props step);
     args.weather := props.weather (step_props step);
     args.duration := props.duration (step_props step);
     args.message := props.message (step_props step);
     args.target := props.target (step_props step);
     args.command := props.command (step_props step);
     args.steps := props.steps (step_props step) |}.

(** [WorldTool.executeSequenceStep] *)
Definition executeSequenceStep (this_world : option world.t)
    (step : SequenceStep) (index : Z)
  : async (reply CommandResult) (Result CommandResult) :=
  if (step_type step =? "wait")%string then
    super_executeSequenceStep step index
  else
    execute SequenceStep CommandResult string_of_number string_of_weather
            Date_now createErrorResponse executeSequence this_world
            (worldArgs step).
End Tool.
End WorldStep.

(** ** Further vocabulary *)

Module BuildCubeTerms.
Import BuildCube BuildCubeSpec.

(** Corner 2 is not below corner 1 on any axis. *)
Definition ascending (c : coords.t) : Prop :=
  coords.x1 c <= coords.x2 c
  /\ coords.y1 c <= coords.y2 c
  /\ coords.z1 c <= coords.z2 c.

(** The same box, its corners exchanged. *)
Definition exchanged (c : coords.t) : coords.t :=
  {| coords.x1 := coords.x2 c; coords.y1 := coords.y2 c;
     coords.z1 := coords.z2 c;
     coords.x2 := coords.x1 c; coords.y2 := coords.y1 c;
     coords.z2 := coords.z1 c |}.

(** The number of blocks between two positions, ends included. *)
Definition blocks_between (p q : Vector3) : Z :=
  span (vx p) (vx q) * span (vy p) (vy q) * span (vz p) (vz q).

(** [v] lies in the box of [c], and off its faces. *)
Definition strictly_inside (c : coords.t) (v : Vector3) : Prop :=
  Z.min (coords.x1 c) (coords.x2 c) < vx v < Z.max (coords.x1 c) (coords.x2 c)
  /\ Z.min (coords.y1 c) (coords.y2 c) < vy v
     < Z.max (coords.y1 c) (coords.y2 c)
  /\ Z.min (coords.z1 c) (coords.z2 c) < vz v
     < Z.max (coords.z1 c) (coords.z2 c).

(** Two requests that differ at most in the fractional parts of their
    coordinates. *)
Definition same_floors (a b : args.t) : Prop :=
  args.action a = args.action b
  /\ args.material a = args.material b
  /\ args.hollow a = args.hollow b
  /\ floor_coords a = floor_coords b.

(** [Number.isSafeInteger]: up to 2^53 - 1 in magnitude, where integer
    arithmetic is exact. *)
Definition safe (n : Z) : Prop := - (2 ^ 53 - 1) <= n <= 2 ^ 53 - 1.

Definition safe_coords (c : coords.t) : Prop :=
  safe (coords.x1 c) /\ safe (coords.y1 c) /\ safe (coords.z1 c)
  /\ safe (coords.x2 c) /\ safe (coords.y2 c) /\ safe (coords.z2 c).

(** Every axis spans at least 3 blocks. *)
Definition roomy (c : coords.t) : Prop :=
  3 <= span (coords.x1 c) (coords.x2 c)
  /\ 3 <= span (coords.y1 c) (coords.y2 c)
  /\ 3 <= span (coords.z1 c) (coords.z2 c).




(** A solid build: [hollow] omitted or false. *)
Definition is_solid (a : args.t) : Prop :=
  default false (args.hollow a) = false.
End BuildCubeTerms.

(** No call of the trace but the last was rejected. *)
Fixpoint stops_at_rejection {call : Type} {reply : call -> Type}
    (trace : list (event reply)) : bool :=
  match trace with
  | [] => true
  | ev :: rest =>
      match rest with
      | [] => true
      | _ :: _ =>
          match rejection ev with
          | None => stops_at_rejection rest
          | Some _ => false
          end
      end
  end.

Module WorldToolTerms.
Import WorldTool.

(** The actions the [switch] of [execute] knows. *)
Definition known_actions : list string :=
  [ "set_time"; "get_time"; "get_day"; "set_weather"; "get_weather";
    "get_players"; "get_world_info"; "send_message"; "run_command";
    "get_connection_info"; "sequence" ].

(** The actions that only read. *)
Definition query_actions : list string :=
  [ "get_time"; "get_day"; "get_weather"; "get_players"; "get_world_info";
    "get_connection_info" ].

(** The calls that change nothing in the world. *)
Definition is_query (c : call) : bool :=
  match c with
  | getTimeOfDay _ | getDay _ | getCurrentTick _ | getWeather _
  | getPlayers _ => true
  | setTimeOfDay _ _ | setWeather _ _ _ | sendMessage _ _ _
  | runCommand _ _ => false
  end.

(** An optional string that is missing or empty. *)
Definition absent (o : option string) : Prop := o = None \/ o = Some "".

Definition with_time (action : string) (time : option Q) : args.t unit :=
  {| args.action := action; args.time := time; args.weather := None;
     args.duration := None; args.message := None; args.target := None;
     args.command := None; args.steps := None |}.

Definition with_message (message target : option string) : args.t unit :=
  {| args.action := "send_message"; args.time := None; args.weather := None;
     args.duration := None; args.message := message; args.target := target;
     args.command := None; args.steps := None |}.

Definition with_command (command : option string) : args.t unit :=
  {| args.action := "run_command"; args.time := None; args.weather := None;
     args.duration := None; args.message := None; args.target := None;
     args.command := command; args.steps := None |}.
End WorldToolTerms.

(** ** Executions *)

Section RunFacts.
Context {call : Type} {reply : call -> Type}.
Variable g : gateway reply.

(** A [try] whose handler returns a value never lets an exception out. *)
Lemma try_catch_settles {A : Type} (p : async reply A)
    (handler : thrown -> A) (s : gw_state g) :
  exists v, snd (run g (try_catch p (fun e => Return (handler e))) s)
            = Fulfilled v.
Proof.
  revert s. induction p as [v | e | c k IH]; intros s; simpl.
  - exists v; reflexivity.
  - exists (handler e); reflexivity.
  - destruct (gw_respond g c s) as [r s'].
    destruct (IH r s') as [v Hv].
    destruct (run g (try_catch (k r) (fun e => Return (handler e))) s')
      as [trace out].
    exists v. exact Hv.
Qed.
End RunFacts.

Section PlainFacts.
Context {call : Type} {reply : call -> Type}.

Lemma plain_await (c : call) : plain (await (reply := reply) c).
Proof. constructor; intros; [reflexivity | constructor]. Qed.

Lemma plain_bind {A B : Type} (m : async reply A) (f : A -> async reply B) :
  plain m -> (forall v, plain (f v)) -> plain (bind m f).
Proof.
  intros Hm Hf. induction Hm as [v | c k Hrej Hful IH]; simpl.
  - apply Hf.
  - constructor.
    + intros e. rewrite Hrej. reflexivity.
    + exact IH.
Qed.

(** Under a [try] whose handler returns, a plain program that meets a
    rejection ends with what the handler makes of it. *)
Lemma plain_rejection_handled {A : Type} (g : gateway reply)
    (p : async reply A) (handler : thrown -> A) (e : thrown) :
  plain p ->
  forall s : gw_state g,
    rejected_with e
      (fst (run g (try_catch p (fun e => Return (handler e))) s)) ->
    snd (run g (try_catch p (fun e => Return (handler e))) s)
    = Fulfilled (handler e).
Proof.
  unfold rejected_with.
  intros Hp. induction Hp as [v | c k Hrej Hful IH]; intros s; simpl.
  - tauto.
  - destruct (gw_respond g c s) as [[v | e0] s1].
    + specialize (IH v s1).
      destruct (run g (try_catch (k (Fulfilled v))
                                 (fun e => Return (handler e))) s1)
        as [trace out].
      simpl in *. intros [H | H]; [discriminate | auto].
    + rewrite Hrej. simpl.
      intros [H | H]; [injection H as -> | contradiction]. reflexivity.
Qed.
End PlainFacts.

(** ** Properties of build_cube *)

Module BuildCubeProps.
Import BuildCube BuildCubeSpec BuildCubeTerms.

Lemma y_out_of_range_false (c : coords.t) :
  y_out_of_range c = false <-> in_band c.
Proof.
  unfold y_out_of_range, in_band.
  rewrite !orb_false_iff, !Z.ltb_ge, !Z.gtb_ltb, !Z.ltb_ge. lia.
Qed.

Lemma y_out_of_range_true (c : coords.t) :
  y_out_of_range c = true <->
  coords.y1 c < -64 \/ coords.y1 c > 320
  \/ coords.y2 c < -64 \/ coords.y2 c > 320.
Proof.
  unfold y_out_of_range.
  rewrite !orb_true_iff, !Z.ltb_lt, !Z.gtb_ltb, !Z.ltb_lt. lia.
Qed.

Lemma volume_gtb (c : coords.t) :
  (volume c >? 32768) = true <-> volume c > 32768.
Proof. rewrite Z.gtb_ltb, Z.ltb_lt. lia. Qed.

Lemma volume_gtb_false (c : coords.t) :
  (volume c >? 32768) = false <-> volume c <= 32768.
Proof. rewrite Z.gtb_ltb, Z.ltb_ge. lia. Qed.

Lemma is_build_eqb (a : args.t) :
  is_build a ->
  (default "build" (args.action a) =? "build")%string = true.
Proof. unfold is_build. intros ->. reflexivity. Qed.

Section Guards.
Variable createErrorResponse : string -> Result.
Variable this_world : option world.t.
Variable a : args.t.
Hypothesis Hbuild : is_build a.

Lemma execute_out_of_band :
  y_out_of_range (floor_coords a) = true ->
  execute createErrorResponse this_world a
  = Return (failure "Y coordinates must be between -64 and 320").
Proof.
  intros Hy. unfold execute.
  rewrite (is_build_eqb a Hbuild), Hy. reflexivity.
Qed.

Lemma execute_too_large :
  y_out_of_range (floor_coords a) = false ->
  (volume (floor_coords a) >? 32768) = true ->
  execute createErrorResponse this_world a
  = Return (failure "Volume too large (maximum 32768 blocks)").
Proof.
  intros Hy Hv. unfold execute.
  rewrite (is_build_eqb a Hbuild), Hy, Hv. reflexivity.
Qed.

Lemma execute_validated :
  y_out_of_range (floor_coords a) = false ->
  (volume (floor_coords a) >? 32768) = false ->
  execute createErrorResponse this_world a
  = match this_world with
    | None =>
        Return (failure
                  "World not available. Ensure Minecraft is connected.")
    | Some world =>
        let c := floor_coords a in
        let hollow := default false (args.hollow a) in
        try_catch
          (try_catch
             (bind (fills world c (submitted_material a) hollow)
                   (fun blocksPlaced =>
                      Return (built c (submitted_material a) hollow
                                    blocksPlaced)))
             (fun error =>
                Return (failure ("Building error: "
                                 ++ error_text error))))
          (fun error =>
             Return (failure ("Error building cube: "
                              ++ error_text error)))
    end.
Proof.
  intros Hy Hv. unfold execute.
  rewrite (is_build_eqb a Hbuild), Hy, Hv. simpl negb. cbv iota.
  destruct this_world; reflexivity.
Qed.
End Guards.

(** The run of a validated request on a connected world, by the answers
    of the gateway. *)
Section Fills.
Variable g : gateway reply.
Variable world : world.t.
Variable c : coords.t.
Variable blockId : string.
Variable hollow : bool.

Let body : async reply Result :=
  try_catch
    (try_catch
       (bind (fills world c blockId hollow)
             (fun blocksPlaced =>
                Return (built c blockId hollow blocksPlaced)))
       (fun error =>
          Return (failure ("Building error: " ++ error_text error))))
    (fun error =>
       Return (failure ("Error building cube: " ++ error_text error))).

Let outer : call := fillBlocks world (corner1 c) (corner2 c) blockId.
Let inner : call := fillBlocks world (inner1 c) (inner2 c) "minecraft:air".

Lemma run_outer_rejected (s s1 : gw_state g) (e : thrown) :
  gw_respond g outer s = (Rejected e, s1) ->
  run g body s
  = ([Called outer (Rejected e)],
     Fulfilled (failure ("Building error: " ++ error_text e))).
Proof.
  intros H. unfold body, fills, await_fillBlocks.
  destruct hollow; simpl; fold outer; rewrite H; reflexivity.
Qed.

Lemma run_single_fill (s s1 : gw_state g) (n : Z) :
  hollow && has_interior c = false ->
  gw_respond g outer s = (Fulfilled n, s1) ->
  run g body s
  = ([Called outer (Fulfilled n)],
     Fulfilled (built c blockId hollow n)).
Proof.
  intros Hh H. unfold body, fills, await_fillBlocks.
  destruct hollow; simpl in *; fold outer; rewrite H; simpl.
  - rewrite Hh. reflexivity.
  - reflexivity.
Qed.

Lemma run_two_fills (s s1 s2 : gw_state g) (n : Z)
    (r : settled Z) :
  hollow = true -> has_interior c = true ->
  gw_respond g outer s = (Fulfilled n, s1) ->
  gw_respond g inner s1 = (r, s2) ->
  run g body s
  = ([Called outer (Fulfilled n); Called inner r],
     Fulfilled match r with
               | Fulfilled m => built c blockId true (n - m)
               | Rejected e =>
                   failure ("Building error: " ++ error_text e)
               end).
Proof.
  intros -> Hi H1 H2. unfold body, fills, await_fillBlocks.
  simpl. fold outer. rewrite H1. simpl. rewrite Hi. simpl.
  fold inner. rewrite H2. destruct r; reflexivity.
Qed.
(** Every run of the fills is one of four. *)
Lemma run_fills_cases (s : gw_state g) :
  (exists e,
      run g body s
      = ([Called outer (Rejected e)],
         Fulfilled (failure ("Building error: " ++ error_text e))))
  \/ (exists n,
         hollow && has_interior c = false
         /\ run g body s
            = ([Called outer (Fulfilled n)],
               Fulfilled (built c blockId hollow n)))
  \/ (exists n m,
         hollow = true /\ has_interior c = true
         /\ run g body s
            = ([Called outer (Fulfilled n); Called inner (Fulfilled m)],
               Fulfilled (built c blockId true (n - m))))
  \/ (exists n e,
         hollow = true /\ has_interior c = true
         /\ run g body s
            = ([Called outer (Fulfilled n); Called inner (Rejected e)],
               Fulfilled (failure ("Building error: " ++ error_text e)))).
Proof.
  destruct (gw_respond g outer s) as [[n | e] s1] eqn:H1.
  - destruct (hollow && has_interior c) eqn:Hh.
    + apply andb_true_iff in Hh. destruct Hh as [Hh Hi].
      destruct (gw_respond g inner s1) as [[m | e] s2] eqn:H2.
      * right; right; left. exists n, m.
        rewrite (run_two_fills s s1 s2 n _ Hh Hi H1 H2). auto.
      * right; right; right. exists n, e.
        rewrite (run_two_fills s s1 s2 n _ Hh Hi H1 H2). auto.
    + right; left. exists n. rewrite (run_single_fill s s1 n Hh H1). auto.
  - left. exists e. rewrite (run_outer_rejected s s1 e H1). reflexivity.
Qed.
End Fills.

Lemma includes_colon_cons (ch : ascii) (rest : string) :
  includes ":" (String ch rest)
  = if ascii_dec ":" ch then true else includes ":" rest.
Proof.
  change (includes ":" (String ch rest))
    with (if (if ascii_dec ":" ch then String.prefix "" rest else false)
          then true else includes ":" rest).
  destruct (ascii_dec ":" ch); [destruct rest |]; reflexivity.
Qed.

Lemma includes_colon (s : string) :
  includes ":" s = true <-> In ":"%char (list_ascii_of_string s).
Proof.
  induction s as [| ch rest IH].
  - simpl. split; [discriminate | tauto].
  - rewrite includes_colon_cons.
    change (list_ascii_of_string (String ch rest))
      with (ch :: list_ascii_of_string rest).
    destruct (ascii_dec ":" ch) as [E | E].
    + split; [intros _; left; symmetry; exact E | reflexivity].
    + rewrite IH. split; [right; assumption | intros [H | H]; [congruence | exact H]].
Qed.

Lemma includes_colon_false (s : string) :
  includes ":" s = false <-> ~ In ":"%char (list_ascii_of_string s).
Proof.
  rewrite <- includes_colon. destruct (includes ":" s); split; congruence.
Qed.

Lemma is_floor_of_Qfloor (q : Q) : is_floor_of q (Qfloor q).
Proof. split; [apply Qfloor_le | apply Qlt_floor]. Qed.

Lemma is_floor_of_unique (q : Q) (n : Z) : is_floor_of q n -> n = Qfloor q.
Proof.
  intros [Hle Hlt].
  pose proof (Qfloor_le q) as Fle. pose proof (Qlt_floor q) as Flt.
  assert (H1 : (inject_Z n < inject_Z (Qfloor q + 1))%Q)
    by (eapply Qle_lt_trans; eassumption).
  assert (H2 : (inject_Z (Qfloor q) < inject_Z (n + 1))%Q)
    by (eapply Qle_lt_trans; eassumption).
  rewrite <- Zlt_Qlt in H1, H2. lia.
Qed.

Lemma round64_exact (n : Z) : - 2 ^ 53 <= n <= 2 ^ 53 -> round64 n = n.
Proof.
  intros Hn. unfold round64.
  destruct (Z.leb_spec (Z.log2 (Z.abs n) + 1) 53) as [_ | Hlog];
    [reflexivity |].
  assert (Hpos : 0 < Z.abs n).
  { destruct (Z.eq_dec n 0) as [-> | Hz]; [simpl in Hlog; lia | lia]. }
  assert (Hge : 2 ^ 53 <= Z.abs n) by (apply Z.log2_le_pow2; lia).
  assert (Hcases : n = 2 ^ 53 \/ n = - 2 ^ 53) by lia.
  destruct Hcases as [-> | ->]; vm_compute; reflexivity.
Qed.

(** On safe coordinates the corners of the air fill are the exact ones. *)
Lemma inner_corners_exact (c : coords.t) :
  safe_coords c ->
  inner1 c = vec (Z.min (coords.x1 c) (coords.x2 c) + 1)
                 (Z.min (coords.y1 c) (coords.y2 c) + 1)
                 (Z.min (coords.z1 c) (coords.z2 c) + 1)
  /\ inner2 c = vec (Z.max (coords.x1 c) (coords.x2 c) - 1)
                    (Z.max (coords.y1 c) (coords.y2 c) - 1)
                    (Z.max (coords.z1 c) (coords.z2 c) - 1).
Proof.
  unfold safe_coords, safe, inner1, inner2.
  intros [Hx1 [Hy1 [Hz1 [Hx2 [Hy2 Hz2]]]]].
  rewrite !round64_exact by lia. split; reflexivity.
Qed.

Lemma has_interior_spans (c : coords.t) :
  safe_coords c ->
  (has_interior c = true <-> roomy c).
Proof.
  intros Hs. destruct (inner_corners_exact c Hs) as [H1 H2].
  unfold has_interior, roomy, span. rewrite H1, H2. cbn [vx vy vz].
  rewrite !andb_true_iff, !Z.leb_le. lia.
Qed.

Lemma in_band_safe (c : coords.t) :
  in_band c -> safe (coords.y1 c) /\ safe (coords.y2 c).
Proof. unfold in_band, safe. lia. Qed.

(** *** The volume *)

(** The volume the guard computes, over the floored corners; it is the
    number of blocks of the region when corner 2 is not below corner 1 on
    any axis. *)
Lemma volume_of_floored_corners (a : args.t) :
  let c := floor_coords a in
  volume c
  = Z.abs (Qfloor (args.x2 a) - Qfloor (args.x1 a) + 1)
    * Z.abs (Qfloor (args.y2 a) - Qfloor (args.y1 a) + 1)
    * Z.abs (Qfloor (args.z2 a) - Qfloor (args.z1 a) + 1)
  /\ (coords.x1 c <= coords.x2 c ->
      coords.y1 c <= coords.y2 c ->
      coords.z1 c <= coords.z2 c ->
      volume c = block_count c).
Proof.
  split.
  - reflexivity.
  - unfold volume, block_count, span. intros Hx Hy Hz.
    rewrite !Z.abs_eq, !Z.max_r, !Z.min_l by lia. reflexivity.
Qed.

(** C1.  The computed volume is not the same for the two orders of the
    corners: the stone cube of the documentation has volume 1331, and 729
    once its corners are exchanged, the [+1] being inside the absolute
    value.  A slab two blocks thick given from x = 1 to x = 0 has a
    computed volume of 0 for its 6020602 blocks, and its fill is issued. *)
Theorem volume_changes_under_swap :
  volume (floor_coords stone_cube) = 1331
  /\ volume (floor_coords (swap_corners stone_cube)) = 729
  /\ volume (floor_coords (swap_corners stone_cube))
     <> volume (floor_coords stone_cube)
  /\ block_count (floor_coords (swap_corners stone_cube))
     = block_count (floor_coords stone_cube)
  /\ volume (floor_coords reversed_slab) = 0
  /\ block_count (floor_coords reversed_slab) = 6020602
  /\ map call_of
         (trace_of scripted (execute plain_error (Some a_world) reversed_slab)
                   [])
     = [fillBlocks a_world (vec 1 0 0) (vec 0 300 10000) "minecraft:stone"].
Proof.
  split; [reflexivity |]. split; [reflexivity |].
  split; [vm_compute; discriminate |].
  repeat split.
Qed.

(** *** Coordinate normalization *)

Lemma floor_with_coords (a : args.t) (c0 : coords.t) :
  floor_coords (with_coords a c0) = c0.
Proof.
  destruct c0 as [a1 b1 c1 a2 b2 c2]. unfold floor_coords, with_coords.
  cbn [args.x1 args.y1 args.z1 args.x2 args.y2 args.z2
       coords.x1 coords.y1 coords.z1 coords.x2 coords.y2 coords.z2].
  rewrite !Qfloor_Z. reflexivity.
Qed.

(** C6.  Each of the six coordinates is floored: the normalized value [n]
    is the one integer with [n <= q < n + 1], whatever the sign of [q].
    Nothing is rejected at this step, and integer coordinates come back
    as they are, so normalizing twice is normalizing once. *)
Theorem floor_coords_spec (a : args.t) :
  let c := floor_coords a in
  (is_floor_of (args.x1 a) (coords.x1 c)
   /\ is_floor_of (args.y1 a) (coords.y1 c)
   /\ is_floor_of (args.z1 a) (coords.z1 c)
   /\ is_floor_of (args.x2 a) (coords.x2 c)
   /\ is_floor_of (args.y2 a) (coords.y2 c)
   /\ is_floor_of (args.z2 a) (coords.z2 c))
  /\ (forall c' : coords.t,
        is_floor_of (args.x1 a) (coords.x1 c') ->
        is_floor_of (args.y1 a) (coords.y1 c') ->
        is_floor_of (args.z1 a) (coords.z1 c') ->
        is_floor_of (args.x2 a) (coords.x2 c') ->
        is_floor_of (args.y2 a) (coords.y2 c') ->
        is_floor_of (args.z2 a) (coords.z2 c') ->
        c' = c)
  /\ (forall c0 : coords.t, floor_coords (with_coords a c0) = c0)
  /\ floor_coords (with_coords a c) = c
  /\ floor_coords fractional = coords.make (-3) 64 0 3 70 2.
Proof.
  cbv zeta. split; [| split; [| split; [| split]]].
  - repeat split; apply is_floor_of_Qfloor.
  - intros [a1 b1 c1 a2 b2 c2]. simpl. intros H1 H2 H3 H4 H5 H6.
    unfold floor_coords.
    rewrite (is_floor_of_unique _ _ H1), (is_floor_of_unique _ _ H2),
      (is_floor_of_unique _ _ H3), (is_floor_of_unique _ _ H4),
      (is_floor_of_unique _ _ H5), (is_floor_of_unique _ _ H6).
    reflexivity.
  - intros c0. apply floor_with_coords.
  - apply floor_with_coords.
  - reflexivity.
Qed.

Lemma floor_coords_spec_witness :
  floor_coords fractional = coords.make (-3) 64 0 3 70 2
  /\ is_floor_of (-5 # 2) (-3)
  /\ floor_coords (with_coords fractional (floor_coords fractional))
     = floor_coords fractional.
Proof.
  destruct (floor_coords_spec fractional) as [Hf [Hu [_ [Hi He]]]].
  split; [exact He |]. split; [| exact Hi].
  destruct Hf as [Hx _]. exact Hx.
Defined.

(** *** The guards *)

(** C5.  A build request with a floored corner whose Y lies outside
    [-64, 320] fails with the bounds message, whatever the world and the
    gateway, and no gateway call is issued. *)
Theorem out_of_band_rejected (createErrorResponse : string -> Result)
    (this_world : option world.t) (a : args.t)
    (g : gateway reply) (s : gw_state g) :
  is_build a ->
  (coords.y1 (floor_coords a) < -64 \/ coords.y1 (floor_coords a) > 320
   \/ coords.y2 (floor_coords a) < -64 \/ coords.y2 (floor_coords a) > 320) ->
  run g (execute createErrorResponse this_world a) s
  = ([], Fulfilled (failure "Y coordinates must be between -64 and 320")).
Proof.
  intros Hb Hy. apply y_out_of_range_true in Hy.
  rewrite (execute_out_of_band _ _ _ Hb Hy). reflexivity.
Qed.

Lemma out_of_band_rejected_witness :
  run scripted (execute plain_error (Some a_world) below_band)
      [Fulfilled 1331]
  = ([], Fulfilled (failure "Y coordinates must be between -64 and 320")).
Proof.
  apply (out_of_band_rejected plain_error (Some a_world) below_band scripted).
  - reflexivity.
  - left. vm_compute. reflexivity.
Defined.

(** C4, as the code has it.  A build request whose floored region has a
    computed volume above 32768 fails and issues no gateway call; the
    failure is the volume message when both corners are in the height
    band, which is checked first. *)
Theorem too_large_rejected (createErrorResponse : string -> Result)
    (this_world : option world.t) (a : args.t)
    (g : gateway reply) (s : gw_state g) :
  is_build a ->
  volume (floor_coords a) > 32768 ->
  trace_of g (execute createErrorResponse this_world a) s = []
  /\ (exists r, outcome_of g (execute createErrorResponse this_world a) s
                = Fulfilled r /\ success r = false)
  /\ (in_band (floor_coords a) ->
      run g (execute createErrorResponse this_world a) s
      = ([], Fulfilled (failure "Volume too large (maximum 32768 blocks)"))).
Proof.
  intros Hb Hv. apply volume_gtb in Hv.
  unfold trace_of, outcome_of.
  destruct (y_out_of_range (floor_coords a)) eqn:Hy.
  - rewrite (execute_out_of_band _ _ _ Hb Hy). simpl.
    split; [reflexivity |]. split; [eexists; split; reflexivity |].
    intros Hin. apply y_out_of_range_false in Hin. congruence.
  - rewrite (execute_too_large _ _ _ Hb Hy Hv). simpl.
    split; [reflexivity |]. split; [eexists; split; reflexivity |].
    reflexivity.
Qed.

Lemma too_large_rejected_witness :
  run scripted (execute plain_error (Some a_world) huge) [Fulfilled 7]
  = ([], Fulfilled (failure "Volume too large (maximum 32768 blocks)")).
Proof.
  apply (too_large_rejected plain_error (Some a_world) huge scripted).
  - reflexivity.
  - vm_compute. reflexivity.
  - vm_compute. intuition discriminate.
Defined.

(** C4 as stated fails: a region of volume 101 * 171 * 101 that starts
    below the band is refused with the bounds message. *)
Lemma too_large_below_band :
  volume (floor_coords huge_below_band) > 32768
  /\ run scripted (execute plain_error (Some a_world) huge_below_band) []
     = ([], Fulfilled (failure "Y coordinates must be between -64 and 320"))
  /\ outcome_of scripted
       (execute plain_error (Some a_world) huge_below_band) []
     <> Fulfilled (failure "Volume too large (maximum 32768 blocks)").
Proof.
  split; [vm_compute; reflexivity |].
  split; [reflexivity | vm_compute; discriminate].
Qed.

(** *** The fills *)




(** The runs of a validated build request on a connected world. *)
Lemma run_connected_cases (createErrorResponse : string -> Result)
    (world : world.t) (a : args.t) (g : gateway reply) (s : gw_state g) :
  is_build a ->
  in_band (floor_coords a) ->
  volume (floor_coords a) <= 32768 ->
  let c := floor_coords a in
  let hollow := default false (args.hollow a) in
  let p := execute createErrorResponse (Some world) a in
  (exists e,
      run g p s
      = ([Called (outer_fill world a) (Rejected e)],
         Fulfilled (failure ("Building error: " ++ error_text e))))
  \/ (exists n,
         hollow && has_interior c = false
         /\ run g p s
            = ([Called (outer_fill world a) (Fulfilled n)],
               Fulfilled (built c (submitted_material a) hollow n)))
  \/ (exists n m,
         hollow = true /\ has_interior c = true
         /\ run g p s
            = ([Called (outer_fill world a) (Fulfilled n);
                Called (inner_fill world a) (Fulfilled m)],
               Fulfilled (built c (submitted_material a) true (n - m))))
  \/ (exists n e,
         hollow = true /\ has_interior c = true
         /\ run g p s
            = ([Called (outer_fill world a) (Fulfilled n);
                Called (inner_fill world a) (Rejected e)],
               Fulfilled (failure ("Building error: " ++ error_text e)))).
Proof.
  intros Hb Hy Hv c hollow p.
  apply y_out_of_range_false in Hy. apply volume_gtb_false in Hv.
  assert (Hp : p = _) by exact (execute_validated _ (Some world) a Hb Hy Hv).
  cbv zeta in Hp. fold c hollow in Hp. rewrite Hp.
  exact (run_fills_cases g world c (submitted_material a) hollow s).
Qed.

(** The runs that issue no call. *)
Lemma run_guarded_cases (createErrorResponse : string -> Result)
    (this_world : option world.t) (a : args.t)
    (g : gateway reply) (s : gw_state g) :
  is_build a ->
  let c := floor_coords a in
  let p := execute createErrorResponse this_world a in
  (~ in_band c
   /\ run g p s
      = ([], Fulfilled (failure "Y coordinates must be between -64 and 320")))
  \/ (in_band c /\ volume c > 32768
      /\ run g p s
         = ([], Fulfilled (failure "Volume too large (maximum 32768 blocks)")))
  \/ (in_band c /\ volume c <= 32768 /\ this_world = None
      /\ run g p s
         = ([], Fulfilled
                  (failure
                     "World not available. Ensure Minecraft is connected.")))
  \/ (in_band c /\ volume c <= 32768 /\ exists world, this_world = Some world).
Proof.
  intros Hb c p. subst p.
  destruct (y_out_of_range c) eqn:Hy.
  - left. rewrite (execute_out_of_band _ _ _ Hb Hy).
    split; [| reflexivity].
    intros Hin. apply y_out_of_range_false in Hin. fold c in Hin. congruence.
  - right. pose proof (proj1 (y_out_of_range_false c) Hy) as Hin.
    destruct (volume c >? 32768) eqn:Hv.
    + left. rewrite (execute_too_large _ _ _ Hb Hy Hv).
      apply volume_gtb in Hv. auto.
    + right. pose proof (proj1 (volume_gtb_false c) Hv) as Hle.
      destruct this_world as [world |].
      * right. eauto.
      * left. rewrite (execute_validated _ None _ Hb Hy Hv). auto.
Qed.

(** C7.  A build request that reaches the gateway submits, in its first
    call, the full region with the material the request names: prefixed
    with [minecraft:] when the name has no [:], as given when it has one,
    and [minecraft:stone] when the request names none.  The outcome of a
    successful build carries the same identifier. *)
Theorem material_namespace (createErrorResponse : string -> Result)
    (world : world.t) (a : args.t) (g : gateway reply) (s : gw_state g) :
  is_build a ->
  in_band (floor_coords a) ->
  volume (floor_coords a) <= 32768 ->
  let c := floor_coords a in
  let p := execute createErrorResponse (Some world) a in
  (exists r rest,
      trace_of g p s
      = Called (fillBlocks world (corner1 c) (corner2 c)
                           (submitted_material a)) r :: rest)
  /\ (forall r d, outcome_of g p s = Fulfilled r -> data r = Some d ->
                  cube.material d = submitted_material a)
  /\ (forall m, args.material a = Some m ->
                ~ In ":"%char (list_ascii_of_string m) ->
                submitted_material a = "minecraft:" ++ m)
  /\ (forall m, args.material a = Some m ->
                In ":"%char (list_ascii_of_string m) ->
                submitted_material a = m)
  /\ (args.material a = None -> submitted_material a = "minecraft:stone").
Proof.
  intros Hb Hy Hv c p.
  pose proof (run_connected_cases createErrorResponse world a g s Hb Hy Hv)
    as Hrun. cbv zeta in Hrun. fold c p in Hrun.
  unfold trace_of, outcome_of.
  split; [| split; [| split; [| split]]].
  - destruct Hrun as [[e H] | [[n [_ H]] | [[n [m [_ [_ H]]]] | [n [e [_ [_ H]]]]]]];
      rewrite H; simpl; eauto.
  - intros r d.
    destruct Hrun as [[e H] | [[n [_ H]] | [[n [m [_ [_ H]]]] | [n [e [_ [_ H]]]]]]];
      rewrite H; simpl; intros Hr Hd; injection Hr as <-; simpl in Hd;
      try discriminate; injection Hd as <-; reflexivity.
  - intros m Hm Hno. unfold submitted_material, normalize_blockId.
    rewrite Hm. cbn [default].
    apply includes_colon_false in Hno. rewrite Hno. reflexivity.
  - intros m Hm Hin. unfold submitted_material, normalize_blockId.
    rewrite Hm. cbn [default].
    apply includes_colon in Hin. rewrite Hin. reflexivity.
  - intros Hm. unfold submitted_material. rewrite Hm. reflexivity.
Qed.

Lemma material_namespace_witness :
  (exists r rest,
      trace_of scripted (execute plain_error (Some a_world) stone_cube)
               [Fulfilled 1331]
      = Called (fillBlocks a_world (vec 0 64 0) (vec 10 74 10)
                           "minecraft:stone") r :: rest)
  /\ submitted_material stone_cube = "minecraft:" ++ "stone".
Proof.
  destruct (material_namespace plain_error a_world stone_cube scripted
              [Fulfilled 1331]) as [Ht [_ [Hbare _]]].
  - reflexivity.
  - vm_compute. intuition discriminate.
  - vm_compute. discriminate.
  - split; [exact Ht |].
    apply (Hbare "stone" eq_refl).
    vm_compute. intuition discriminate.
Defined.

(** *** The outcome *)



(** No exception leaves [execute]. *)
Lemma build_settles (createErrorResponse : string -> Result)
    (this_world : option world.t) (a : args.t)
    (g : gateway reply) (s : gw_state g) :
  exists r,
    outcome_of g (execute createErrorResponse this_world a) s = Fulfilled r.
Proof.
  unfold outcome_of, execute.
  apply (try_catch_settles g _
           (fun error => failure ("Error building cube: "
                                  ++ error_text error))).
Qed.

(** A rejected fill ends the build with a failure that carries its text. *)
Lemma build_rejection_reported (createErrorResponse : string -> Result)
    (this_world : option world.t) (a : args.t)
    (g : gateway reply) (s : gw_state g) (e : thrown) :
  rejected_with e (trace_of g (execute createErrorResponse this_world a) s) ->
  outcome_of g (execute createErrorResponse this_world a) s
  = Fulfilled (failure ("Building error: " ++ error_text e)).
Proof.
  unfold rejected_with, trace_of, outcome_of.
  destruct ((default "build" (args.action a) =? "build")%string) eqn:Hact.
  - apply String.eqb_eq in Hact.
    destruct (run_guarded_cases createErrorResponse this_world a g s Hact)
      as [[_ H] | [[_ [_ H]] | [[_ [_ [_ H]]] | [Hy [Hv [world ->]]]]]];
      try (rewrite H; simpl; tauto).
    destruct (run_connected_cases createErrorResponse world a g s Hact Hy Hv)
      as [[e0 H] | [[n [_ H]] | [[n [m [_ [_ H]]]] | [n [e0 [_ [_ H]]]]]]];
      rewrite H; simpl; intros Hin;
      repeat (destruct Hin as [Hin | Hin]; try discriminate);
      try contradiction; injection Hin as ->; reflexivity.
  - unfold execute. rewrite Hact. simpl. tauto.
Qed.

(** Without a world no call is issued, and the first guard that applies
    names the failure. *)
Lemma build_without_world (createErrorResponse : string -> Result)
    (a : args.t) (g : gateway reply) (s : gw_state g) :
  is_build a ->
  run g (execute createErrorResponse None a) s
  = ([], Fulfilled
           (failure
              (if y_out_of_range (floor_coords a)
               then "Y coordinates must be between -64 and 320"
               else if volume (floor_coords a) >? 32768
                    then "Volume too large (maximum 32768 blocks)"
                    else "World not available. Ensure Minecraft is connected."))).
Proof.
  intros Hb.
  destruct (y_out_of_range (floor_coords a)) eqn:Hy.
  - rewrite (execute_out_of_band _ _ _ Hb Hy). reflexivity.
  - destruct (volume (floor_coords a) >? 32768) eqn:Hv.
    + rewrite (execute_too_large _ _ _ Hb Hy Hv). reflexivity.
    + rewrite (execute_validated _ None _ Hb Hy Hv). reflexivity.
Qed.

End BuildCubeProps.

(** ** Properties of world *)

Module WorldToolProps.
Import WorldTool WorldToolSpec.

Section Tool.
Variable SequenceStep : Type.
Variable CommandResult : Type.
Variable string_of_number : Q -> string.
Variable string_of_weather : WeatherType.t -> string.
Variable Date_now : Q.
Variable createErrorResponse : string -> Result CommandResult.
Variable executeSequence :
  list SequenceStep -> async (reply CommandResult) (Result CommandResult).

Let run_tool (this_world : option world.t) (a : args.t SequenceStep)
  : async (reply CommandResult) (Result CommandResult) :=
  execute SequenceStep CommandResult string_of_number string_of_weather
          Date_now createErrorResponse executeSequence this_world a.

Lemma plain_succeed (action : string) (res : result CommandResult)
    (msg : string) :
  plain (succeed CommandResult Date_now action res msg).
Proof. constructor. Qed.

(** Every action but [sequence] is a plain chain of awaited calls. *)
Lemma plain_dispatch (world : world.t) (a : args.t SequenceStep) :
  args.action a <> "sequence" ->
  plain (dispatch SequenceStep CommandResult string_of_number
                  string_of_weather Date_now createErrorResponse
                  executeSequence world a).
Proof.
  intros Hseq. unfold dispatch.
  repeat match goal with
         | |- plain (if (args.action a =? "sequence")%string then _ else _) =>
             destruct (String.eqb_spec (args.action a) "sequence");
             [contradiction |]
         | |- plain (if ?b then _ else _) => destruct b
         | |- plain (match ?o with Some _ => _ | None => _ end) => destruct o
         | |- plain (bind _ _) =>
             apply plain_bind; [apply plain_await | intros ?]
         | |- plain (succeed _ _ _ _ _) => apply plain_succeed
         | |- plain (Return _) => constructor
         end.
Qed.

Lemma world_settles (this_world : option world.t)
    (a : args.t SequenceStep) (g : gateway (reply CommandResult))
    (s : gw_state g) :
  exists r, outcome_of g (run_tool this_world a) s = Fulfilled r.
Proof.
  unfold outcome_of, run_tool, execute. destruct this_world as [world |].
  - apply (try_catch_settles g _
             (fun error => failure CommandResult
                             ("World management error: "
                              ++ error_text error))).
  - simpl. eauto.
Qed.

Lemma world_rejection_reported (this_world : option world.t)
    (a : args.t SequenceStep) (g : gateway (reply CommandResult))
    (s : gw_state g) (e : thrown) :
  args.action a <> "sequence" ->
  rejected_with e (trace_of g (run_tool this_world a) s) ->
  outcome_of g (run_tool this_world a) s
  = Fulfilled (failure CommandResult
                       ("World management error: " ++ error_text e)).
Proof.
  intros Hseq. unfold outcome_of, trace_of, run_tool, execute.
  destruct this_world as [world |].
  - apply (plain_rejection_handled g _
             (fun error => failure CommandResult
                             ("World management error: "
                              ++ error_text error))).
    apply plain_dispatch. exact Hseq.
  - unfold rejected_with. simpl. tauto.
Qed.

Lemma world_without_world (a : args.t SequenceStep)
    (g : gateway (reply CommandResult)) (s : gw_state g) :
  run g (run_tool None a) s
  = ([], Fulfilled
           (failure CommandResult
                    "World not available. Ensure Minecraft is connected.")).
Proof. reflexivity. Qed.

Lemma dispatch_set_weather (world : world.t) (a : args.t SequenceStep)
    (weather : string) :
  args.action a = "set_weather" ->
  args.weather a = Some weather ->
  weather <> "" ->
  dispatch SequenceStep CommandResult string_of_number string_of_weather
           Date_now createErrorResponse executeSequence world a
  = bind (await_world CommandResult
            (setWeather world (normalizeWeatherType weather)
                        (args.duration a)))
         (fun _ =>
            succeed CommandResult Date_now "set_weather" undefined
              (if truthy_number (args.duration a)
               then "Weather set to " ++ weather ++ " for "
                    ++ string_of_number (default 0%Q (args.duration a))
                    ++ " ticks"
               else "Weather set to " ++ weather)).
Proof.
  intros Hact Hw Hne. unfold dispatch. rewrite Hact, Hw.
  change ("set_weather" =? "set_time")%string with false.
  change ("set_weather" =? "get_time")%string with false.
  change ("set_weather" =? "get_day")%string with false.
  change ("set_weather" =? "set_weather")%string with true.
  cbv iota. unfold truthy_string.
  destruct (String.eqb_spec weather "") as [E | _]; [contradiction |].
  reflexivity.
Qed.

(** C10.  [normalizeWeatherType] is a total function: it answers [Rain]
    exactly for the strings that are ['rain'] up to case, [Thunder] exactly
    for those that are ['thunder'] up to case, and [Clear] for every other
    string, ['clear'] up to case among them.  So a [set_weather] with any
    non-empty weather string, recognised or not, issues the [setWeather]
    call, and succeeds when the gateway fulfils it. *)
Theorem weather_normalization :
  (forall w, normalizeWeatherType w = WeatherType.Rain
             <-> same_ignoring_case w "rain")
  /\ (forall w, normalizeWeatherType w = WeatherType.Thunder
                <-> same_ignoring_case w "thunder")
  /\ (forall w, normalizeWeatherType w = WeatherType.Clear
                <-> ~ same_ignoring_case w "rain"
                    /\ ~ same_ignoring_case w "thunder")
  /\ (forall w, same_ignoring_case w "clear" ->
                normalizeWeatherType w = WeatherType.Clear)
  /\ (forall (world : world.t) (a : args.t SequenceStep) (weather : string)
             (g : gateway (reply CommandResult)) (s : gw_state g),
         args.action a = "set_weather" ->
         args.weather a = Some weather ->
         weather <> "" ->
         map call_of (trace_of g (run_tool (Some world) a) s)
         = [setWeather world (normalizeWeatherType weather) (args.duration a)]
         /\ (forall s1,
                gw_respond g (setWeather world (normalizeWeatherType weather)
                                         (args.duration a)) s
                = (Fulfilled tt, s1) ->
                exists r, outcome_of g (run_tool (Some world) a) s = Fulfilled r
                          /\ success r = true)).
Proof.
  unfold same_ignoring_case, normalizeWeatherType.
  change (toLowerCase "rain") with "rain".
  change (toLowerCase "thunder") with "thunder".
  change (toLowerCase "clear") with "clear".
  split; [| split; [| split; [| split]]].
  - intros w.
    destruct (String.eqb_spec (toLowerCase w) "clear") as [E1 | E1];
      [rewrite E1; split; discriminate |].
    destruct (String.eqb_spec (toLowerCase w) "rain") as [E2 | E2];
      [tauto |].
    destruct (String.eqb_spec (toLowerCase w) "thunder");
      split; try discriminate; contradiction.
  - intros w.
    destruct (String.eqb_spec (toLowerCase w) "clear") as [E1 | E1];
      [rewrite E1; split; discriminate |].
    destruct (String.eqb_spec (toLowerCase w) "rain") as [E2 | E2];
      [rewrite E2; split; discriminate |].
    destruct (String.eqb_spec (toLowerCase w) "thunder");
      split; try discriminate; tauto.
  - intros w.
    destruct (String.eqb_spec (toLowerCase w) "clear") as [E1 | E1];
      [rewrite E1; split; [split; discriminate | reflexivity] |].
    destruct (String.eqb_spec (toLowerCase w) "rain") as [E2 | E2];
      [split; [discriminate | tauto] |].
    destruct (String.eqb_spec (toLowerCase w) "thunder");
      split; try discriminate; tauto.
  - intros w ->. reflexivity.
  - intros world a weather g s Hact Hw Hne.
    unfold trace_of, outcome_of, run_tool, execute.
    rewrite (dispatch_set_weather world a weather Hact Hw Hne).
    unfold normalizeWeatherType. simpl.
    destruct (gw_respond g _ s) as [[[] | e] s1] eqn:Hr; simpl.
    + split; [reflexivity |]. intros _ _. eexists. split; reflexivity.
    + split; [reflexivity |]. intros s2 H. discriminate.
Qed.

End Tool.

Lemma weather_normalization_witness :
  normalizeWeatherType "ThUnDeR" = WeatherType.Thunder
  /\ normalizeWeatherType "RAIN" = WeatherType.Rain
  /\ normalizeWeatherType "snow" = WeatherType.Clear
  /\ map call_of
         (trace_of calm
            (execute unit unit show_number show_weather 0%Q plain_error
                     no_sequence (Some BuildCubeSpec.a_world)
                     (set_weather "snow" None)) tt)
     = [setWeather BuildCubeSpec.a_world WeatherType.Clear None].
Proof.
  destruct (weather_normalization unit unit show_number show_weather 0%Q
              plain_error no_sequence) as [Hr [Ht [Hc [_ Hset]]]].
  split; [apply Ht; reflexivity |].
  split; [apply Hr; reflexivity |].
  split; [apply Hc; split; discriminate |].
  destruct (Hset BuildCubeSpec.a_world (set_weather "snow" None) "snow"
                 calm tt eq_refl eq_refl) as [Hcall _].
  - discriminate.
  - exact Hcall.
Defined.

End WorldToolProps.

(** ** Both tools: availability and gateway errors *)

Module ToolsProps.

(** C2, as the code has it.  Without a connected world no operation issues
    a gateway call.  The world tool checks the session first: every action
    fails at once with the connectivity message.  The build tool checks it
    last: a build request fails with the connectivity message when its
    floored corners are in the height band and its volume is within the
    cap, and with the message of the first guard that applies otherwise. *)
Theorem unavailable_world :
  (forall (SequenceStep CommandResult : Type)
          (string_of_number : Q -> string)
          (string_of_weather : WorldTool.WeatherType.t -> string)
          (Date_now : Q)
          (createErrorResponse : string -> WorldTool.Result CommandResult)
          (executeSequence :
             list SequenceStep ->
             async (WorldTool.reply CommandResult)
                   (WorldTool.Result CommandResult))
          (a : WorldTool.args.t SequenceStep)
          (g : gateway (WorldTool.reply CommandResult)) (s : gw_state g),
      run g (WorldTool.execute SequenceStep CommandResult string_of_number
                               string_of_weather Date_now createErrorResponse
                               executeSequence None a) s
      = ([], Fulfilled
               (WorldTool.failure CommandResult
                  "World not available. Ensure Minecraft is connected.")))
  /\ (forall (createErrorResponse : string -> BuildCube.Result)
             (a : BuildCube.args.t)
             (g : gateway BuildCube.reply) (s : gw_state g),
         BuildCubeSpec.is_build a ->
         trace_of g (BuildCube.execute createErrorResponse None a) s = []
         /\ (exists r,
                outcome_of g (BuildCube.execute createErrorResponse None a) s
                = Fulfilled r /\ success r = false)
         /\ (BuildCubeSpec.in_band (BuildCube.floor_coords a) ->
             BuildCube.volume (BuildCube.floor_coords a) <= 32768 ->
             outcome_of g (BuildCube.execute createErrorResponse None a) s
             = Fulfilled
                 (BuildCube.failure
                    "World not available. Ensure Minecraft is connected."))
         /\ (~ BuildCubeSpec.in_band (BuildCube.floor_coords a) ->
             outcome_of g (BuildCube.execute createErrorResponse None a) s
             = Fulfilled
                 (BuildCube.failure
                    "Y coordinates must be between -64 and 320"))
         /\ (BuildCubeSpec.in_band (BuildCube.floor_coords a) ->
             BuildCube.volume (BuildCube.floor_coords a) > 32768 ->
             outcome_of g (BuildCube.execute createErrorResponse None a) s
             = Fulfilled
                 (BuildCube.failure
                    "Volume too large (maximum 32768 blocks)"))).
Proof.
  split.
  - intros. apply WorldToolProps.world_without_world.
  - intros cer a g s Hb. unfold trace_of, outcome_of.
    rewrite (BuildCubeProps.build_without_world cer a g s Hb). simpl.
    split; [reflexivity |]. split; [eexists; split; reflexivity |].
    split; [| split].
    + intros Hy Hv.
      apply BuildCubeProps.y_out_of_range_false in Hy.
      apply BuildCubeProps.volume_gtb_false in Hv.
      rewrite Hy, Hv. reflexivity.
    + intros Hy.
      destruct (BuildCube.y_out_of_range (BuildCube.floor_coords a)) eqn:E;
        [reflexivity |].
      apply BuildCubeProps.y_out_of_range_false in E. contradiction.
    + intros Hy Hv.
      apply BuildCubeProps.y_out_of_range_false in Hy.
      apply BuildCubeProps.volume_gtb in Hv.
      rewrite Hy, Hv. reflexivity.
Qed.

Lemma unavailable_world_witness :
  outcome_of BuildCubeSpec.scripted
    (BuildCube.execute BuildCubeSpec.plain_error None BuildCubeSpec.stone_cube)
    [Fulfilled 1331]
  = Fulfilled
      (BuildCube.failure "World not available. Ensure Minecraft is connected.")
  /\ run WorldToolSpec.calm
         (WorldTool.execute unit unit WorldToolSpec.show_number
            WorldToolSpec.show_weather 0%Q WorldToolSpec.plain_error
            WorldToolSpec.no_sequence None
            (WorldToolSpec.action_only "get_time")) tt
     = ([], Fulfilled
              (WorldTool.failure unit
                 "World not available. Ensure Minecraft is connected.")).
Proof.
  destruct unavailable_world as [Hworld Hbuild].
  split.
  - destruct (Hbuild BuildCubeSpec.plain_error BuildCubeSpec.stone_cube
                     BuildCubeSpec.scripted [Fulfilled 1331] eq_refl)
      as [_ [_ [H _]]].
    apply H.
    + vm_compute. intuition discriminate.
    + vm_compute. discriminate.
  - apply Hworld.
Defined.

(** C2 as stated fails: with no world, the build that starts below the
    band is refused with the bounds message, not the connectivity one. *)
Lemma unavailable_build_below_band :
  run BuildCubeSpec.scripted
      (BuildCube.execute BuildCubeSpec.plain_error None
                         BuildCubeSpec.below_band) []
  = ([], Fulfilled
           (BuildCube.failure "Y coordinates must be between -64 and 320"))
  /\ outcome_of BuildCubeSpec.scripted
       (BuildCube.execute BuildCubeSpec.plain_error None
                          BuildCubeSpec.below_band) []
     <> Fulfilled
          (BuildCube.failure
             "World not available. Ensure Minecraft is connected.").
Proof. split; [reflexivity | vm_compute; discriminate]. Qed.

(** C8.  No exception leaves [execute], of either tool, whatever the
    gateway does.  When a gateway call of a build, or of a world action
    run by the tool itself (any action but [sequence], which is handed to
    the base class), is rejected, the operation resolves to an outcome with
    [success] false whose message ends with the text of the error. *)
Theorem gateway_errors_caught :
  (forall (createErrorResponse : string -> BuildCube.Result)
          (this_world : option world.t) (a : BuildCube.args.t)
          (g : gateway BuildCube.reply) (s : gw_state g),
      let p := BuildCube.execute createErrorResponse this_world a in
      (exists r, outcome_of g p s = Fulfilled r)
      /\ forall e, rejected_with e (trace_of g p s) ->
           exists r, outcome_of g p s = Fulfilled r
                     /\ success r = false
                     /\ message r = "Building error: " ++ error_text e)
  /\ (forall (SequenceStep CommandResult : Type)
             (string_of_number : Q -> string)
             (string_of_weather : WorldTool.WeatherType.t -> string)
             (Date_now : Q)
             (createErrorResponse : string -> WorldTool.Result CommandResult)
             (executeSequence :
                list SequenceStep ->
                async (WorldTool.reply CommandResult)
                      (WorldTool.Result CommandResult))
             (this_world : option world.t)
             (a : WorldTool.args.t SequenceStep)
             (g : gateway (WorldTool.reply CommandResult)) (s : gw_state g),
         let p := WorldTool.execute SequenceStep CommandResult
                    string_of_number string_of_weather Date_now
                    createErrorResponse executeSequence this_world a in
         (exists r, outcome_of g p s = Fulfilled r)
         /\ (WorldTool.args.action a <> "sequence" ->
             forall e, rejected_with e (trace_of g p s) ->
               exists r, outcome_of g p s = Fulfilled r
                         /\ success r = false
                         /\ message r
                            = "World management error: " ++ error_text e)).
Proof.
  split.
  - intros cer w a g s p. split.
    + apply BuildCubeProps.build_settles.
    + intros e He. eexists. split; [| split].
      * apply (BuildCubeProps.build_rejection_reported cer w a g s e He).
      * reflexivity.
      * reflexivity.
  - intros S C shown showw now cer seq w a g s p. split.
    + apply WorldToolProps.world_settles.
    + intros Hseq e He. eexists. split; [| split].
      * apply (WorldToolProps.world_rejection_reported
                 S C shown showw now cer seq w a g s e Hseq He).
      * reflexivity.
      * reflexivity.
Qed.

Lemma gateway_errors_caught_witness :
  (exists r,
      outcome_of BuildCubeSpec.scripted
        (BuildCube.execute BuildCubeSpec.plain_error
           (Some BuildCubeSpec.a_world) BuildCubeSpec.glass_shell)
        [Fulfilled 1331; Rejected (ErrorObject "timeout")]
      = Fulfilled r
      /\ success r = false
      /\ message r = "Building error: " ++ "timeout")
  /\ (exists r,
         outcome_of (WorldToolSpec.failing unit "connection lost")
           (WorldTool.execute unit unit WorldToolSpec.show_number
              WorldToolSpec.show_weather 0%Q WorldToolSpec.plain_error
              WorldToolSpec.no_sequence (Some BuildCubeSpec.a_world)
              (WorldToolSpec.action_only "get_time")) tt
         = Fulfilled r
         /\ success r = false
         /\ message r = "World management error: " ++ "connection lost").
Proof.
  destruct gateway_errors_caught as [Hbuild Hworld].
  split.
  - pose proof (Hbuild BuildCubeSpec.plain_error
                  (Some BuildCubeSpec.a_world) BuildCubeSpec.glass_shell
                  BuildCubeSpec.scripted
                  [Fulfilled 1331; Rejected (ErrorObject "timeout")]) as H.
    cbv zeta in H. destruct H as [_ H].
    apply (H (ErrorObject "timeout")). vm_compute. auto.
  - pose proof (Hworld unit unit WorldToolSpec.show_number
                  WorldToolSpec.show_weather 0%Q WorldToolSpec.plain_error
                  WorldToolSpec.no_sequence (Some BuildCubeSpec.a_world)
                  (WorldToolSpec.action_only "get_time")
                  (WorldToolSpec.failing unit "connection lost") tt) as H.
    cbv zeta in H. destruct H as [_ H].
    apply (H ltac:(discriminate) (ErrorObject "connection lost")).
    vm_compute. auto.
Defined.

End ToolsProps.

(** ** Further properties of build_cube *)

Module BuildCubeMore.
Import BuildCube BuildCubeSpec BuildCubeTerms BuildCubeProps.

Lemma action_not_build (createErrorResponse : string -> Result)
    (this_world : option world.t) (a : args.t) :
  (default "build" (args.action a) =? "build")%string = false ->
  execute createErrorResponse this_world a
  = Return (createErrorResponse
              ("Unknown action: " ++ default "build" (args.action a)
               ++ ". Only 'build' is supported.")).
Proof. intros H. unfold execute. rewrite H. reflexivity. Qed.

(** X22.  A request whose action is given and is not exactly [build] is
    answered through [createErrorResponse] with the unknown-action
    message, before the coordinates are looked at and whatever the world:
    no gateway call is issued for it. *)
Theorem other_action_refused (createErrorResponse : string -> Result)
    (this_world : option world.t) (a : args.t) (action : string)
    (g : gateway reply) (s : gw_state g) :
  args.action a = Some action ->
  action <> "build" ->
  run g (execute createErrorResponse this_world a) s
  = ([], Fulfilled
           (createErrorResponse
              ("Unknown action: " ++ action
               ++ ". Only 'build' is supported."))).
Proof.
  intros Ha Hne.
  assert (H : (default "build" (args.action a) =? "build")%string = false)
    by (rewrite Ha; apply String.eqb_neq; exact Hne).
  rewrite (action_not_build _ _ _ H). rewrite Ha. reflexivity.
Qed.

Lemma other_action_refused_witness :
  run scripted
      (execute plain_error (Some a_world)
         {| args.action := Some "Build";
            args.x1 := 0; args.y1 := 64; args.z1 := 0;
            args.x2 := 10; args.y2 := 74; args.z2 := 10;
            args.material := None; args.hollow := None |})
      [Fulfilled 1331]
  = ([], Fulfilled
           (plain_error
              ("Unknown action: " ++ "Build"
               ++ ". Only 'build' is supported."))).
Proof.
  apply (other_action_refused plain_error (Some a_world) _ "Build" scripted).
  - reflexivity.
  - discriminate.
Defined.

(** X1.  Whatever the request and the gateway, a fill is issued only for a
    build request that passed both guards on a connected world.  The calls
    are then the fill of the full region, followed by the air fill at most
    once and only for a hollow request that passes the interior test of
    the code: never more than two calls. *)
Theorem fills_only_after_guards (createErrorResponse : string -> Result)
    (this_world : option world.t) (a : args.t)
    (g : gateway reply) (s : gw_state g) :
  trace_of g (execute createErrorResponse this_world a) s <> [] ->
  is_build a
  /\ in_band (floor_coords a)
  /\ volume (floor_coords a) <= 32768
  /\ exists world,
       this_world = Some world
       /\ (map call_of (trace_of g (execute createErrorResponse this_world a) s)
           = [outer_fill world a]
           \/ (default false (args.hollow a) = true
               /\ has_interior (floor_coords a) = true
               /\ map call_of
                    (trace_of g (execute createErrorResponse this_world a) s)
                  = [outer_fill world a; inner_fill world a])).
Proof.
  unfold trace_of.
  destruct ((default "build" (args.action a) =? "build")%string) eqn:Hact.
  - apply String.eqb_eq in Hact.
    destruct (run_guarded_cases createErrorResponse this_world a g s Hact)
      as [[_ H] | [[_ [_ H]] | [[_ [_ [_ H]]] | [Hy [Hv [world ->]]]]]];
      try (rewrite H; simpl; congruence).
    intros _. split; [exact Hact |]. split; [exact Hy |].
    split; [exact Hv |]. exists world. split; [reflexivity |].
    destruct (run_connected_cases createErrorResponse world a g s Hact Hy Hv)
      as [[e H] | [[n [_ H]] | [[n [m [Hh [Hi H]]]] | [n [e [Hh [Hi H]]]]]]];
      rewrite H; simpl; auto.
  - rewrite (action_not_build _ _ _ Hact). simpl. congruence.
Qed.

Lemma fills_only_after_guards_witness :
  is_build glass_shell
  /\ in_band (floor_coords glass_shell)
  /\ volume (floor_coords glass_shell) <= 32768
  /\ exists world,
       Some a_world = Some world
       /\ (map call_of
             (trace_of scripted
                (execute plain_error (Some a_world) glass_shell)
                [Fulfilled 1331; Fulfilled 729])
           = [outer_fill world glass_shell]
           \/ (default false (args.hollow glass_shell) = true
               /\ has_interior (floor_coords glass_shell) = true
               /\ map call_of
                    (trace_of scripted
                       (execute plain_error (Some a_world) glass_shell)
                       [Fulfilled 1331; Fulfilled 729])
                  = [outer_fill world glass_shell;
                     inner_fill world glass_shell])).
Proof.
  apply (fills_only_after_guards plain_error (Some a_world) glass_shell
           scripted [Fulfilled 1331; Fulfilled 729]).
  vm_compute. discriminate.
Defined.

(** X2.  A solid build ([hollow] omitted or false) that passed the guards
    on a connected world issues exactly one call, the fill of the full
    region, whatever the gateway answers; when the gateway fulfils it, the
    outcome is a success that reports the count the gateway gave. *)
Theorem solid_build_single_fill (createErrorResponse : string -> Result)
    (world : world.t) (a : args.t) (g : gateway reply) (s : gw_state g) :
  is_build a ->
  is_solid a ->
  in_band (floor_coords a) ->
  volume (floor_coords a) <= 32768 ->
  map call_of (trace_of g (execute createErrorResponse (Some world) a) s)
  = [outer_fill world a]
  /\ forall n s1,
       gw_respond g (outer_fill world a) s = (Fulfilled n, s1) ->
       run g (execute createErrorResponse (Some world) a) s
       = ([Called (outer_fill world a) (Fulfilled n)],
          Fulfilled (built (floor_coords a) (submitted_material a) false n)).
Proof.
  intros Hb Hs Hy Hv. unfold is_solid in Hs.
  apply y_out_of_range_false in Hy. apply volume_gtb_false in Hv.
  unfold trace_of.
  rewrite (execute_validated _ (Some world) a Hb Hy Hv). cbv zeta.
  rewrite Hs. unfold outer_fill. cbv zeta.
  split.
  - destruct (gw_respond g
                (fillBlocks world (corner1 (floor_coords a))
                            (corner2 (floor_coords a))
                            (submitted_material a)) s)
      as [[n | e] s1] eqn:H1.
    + rewrite (run_single_fill g world _ _ false s s1 n eq_refl H1).
      reflexivity.
    + rewrite (run_outer_rejected g world _ _ false s s1 e H1). reflexivity.
  - intros n s1 H1.
    rewrite (run_single_fill g world _ _ false s s1 n eq_refl H1).
    reflexivity.
Qed.

Lemma solid_build_single_fill_witness :
  map call_of
      (trace_of scripted (execute plain_error (Some a_world) stone_cube)
                [Fulfilled 1331; Fulfilled 729])
  = [fillBlocks a_world (vec 0 64 0) (vec 10 74 10) "minecraft:stone"].
Proof.
  destruct (solid_build_single_fill plain_error a_world stone_cube scripted
              [Fulfilled 1331; Fulfilled 729]) as [H _].
  - reflexivity.
  - reflexivity.
  - vm_compute. intuition discriminate.
  - vm_compute. discriminate.
  - exact H.
Defined.

(** X3.  A build request succeeds exactly when both guards pass, a world
    is connected and the gateway rejects none of the fills. *)
Theorem build_success_iff (createErrorResponse : string -> Result)
    (this_world : option world.t) (a : args.t)
    (g : gateway reply) (s : gw_state g) (r : Result) :
  is_build a ->
  outcome_of g (execute createErrorResponse this_world a) s = Fulfilled r ->
  (success r = true <->
   in_band (floor_coords a)
   /\ volume (floor_coords a) <= 32768
   /\ this_world <> None
   /\ forall e,
        ~ rejected_with e
            (trace_of g (execute createErrorResponse this_world a) s)).
Proof.
  intros Hb. unfold outcome_of, trace_of, rejected_with.
  destruct (run_guarded_cases createErrorResponse this_world a g s Hb)
    as [[Hn H] | [[_ [Hv H]] | [[_ [_ [Hw H]]] | [Hy [Hv [world ->]]]]]].
  - rewrite H. simpl. intros Hr. injection Hr as <-. simpl.
    split; [discriminate | tauto].
  - rewrite H. simpl. intros Hr. injection Hr as <-. simpl.
    split; [discriminate | lia].
  - rewrite H. simpl. intros Hr. injection Hr as <-. simpl.
    split; [discriminate | intros [_ [_ [Hne _]]]; contradiction].
  - destruct (run_connected_cases createErrorResponse world a g s Hb Hy Hv)
      as [[e H] | [[n [_ H]] | [[n [m [_ [_ H]]]] | [n [e [_ [_ H]]]]]]];
      rewrite H; simpl; intros Hr; injection Hr as <-; simpl.
    + split; [discriminate |]. intros [_ [_ [_ Hrej]]].
      exfalso. apply (Hrej e). left. reflexivity.
    + split; [| reflexivity]. intros _.
      split; [exact Hy | split; [exact Hv | split; [discriminate |]]].
      intros e [He | []]. discriminate.
    + split; [| reflexivity]. intros _.
      split; [exact Hy | split; [exact Hv | split; [discriminate |]]].
      intros e [He | [He | []]]; discriminate.
    + split; [discriminate |]. intros [_ [_ [_ Hrej]]].
      exfalso. apply (Hrej e). right. left. reflexivity.
Qed.

Lemma build_success_iff_witness :
  success (built (floor_coords glass_shell) "minecraft:glass" true 602) = true
  <-> in_band (floor_coords glass_shell)
      /\ volume (floor_coords glass_shell) <= 32768
      /\ Some a_world <> None
      /\ forall e,
           ~ rejected_with e
               (trace_of scripted
                  (execute plain_error (Some a_world) glass_shell)
                  [Fulfilled 1331; Fulfilled 729]).
Proof.
  apply (build_success_iff plain_error (Some a_world) glass_shell scripted
           [Fulfilled 1331; Fulfilled 729]).
  - reflexivity.
  - reflexivity.
Defined.

(** X4.  Only the floors of the coordinates matter: two requests with the
    same action, material and hollow flag whose coordinates have the same
    floors are the same build, and a request is the same build as the one
    with its coordinates already floored. *)
Theorem same_floors_same_build (createErrorResponse : string -> Result)
    (this_world : option world.t) (a b : args.t) :
  same_floors a b ->
  execute createErrorResponse this_world a
  = execute createErrorResponse this_world b
  /\ execute createErrorResponse this_world a
     = execute createErrorResponse this_world
               (with_coords a (floor_coords a)).
Proof.
  intros [Hact [Hm [Hh Hc]]]. split.
  - unfold execute. rewrite Hact, Hm, Hh, Hc. reflexivity.
  - unfold execute. rewrite (floor_with_coords a (floor_coords a)).
    reflexivity.
Qed.

Lemma same_floors_same_build_witness :
  execute plain_error (Some a_world) fractional
  = execute plain_error (Some a_world)
            (with_coords fractional (coords.make (-3) 64 0 3 70 2)).
Proof.
  apply (same_floors_same_build plain_error (Some a_world) fractional
           (with_coords fractional (coords.make (-3) 64 0 3 70 2))).
  repeat split.
Defined.

Lemma abs_succ_le_span (p q : Z) : 0 <= Z.abs (q - p + 1) <= span p q.
Proof. unfold span. lia. Qed.

Lemma volume_le_block_count (c : coords.t) : 0 <= volume c <= block_count c.
Proof.
  unfold volume, block_count.
  pose proof (abs_succ_le_span (coords.x1 c) (coords.x2 c)) as Hx.
  pose proof (abs_succ_le_span (coords.y1 c) (coords.y2 c)) as Hy.
  pose proof (abs_succ_le_span (coords.z1 c) (coords.z2 c)) as Hz.
  split.
  - apply Z.mul_nonneg_nonneg; [apply Z.mul_nonneg_nonneg |]; lia.
  - apply Z.mul_le_mono_nonneg.
    + apply Z.mul_nonneg_nonneg; lia.
    + apply Z.mul_le_mono_nonneg; lia.
    + lia.
    + lia.
Qed.

(** X5.  For a build request in the height band whose region has at most
    32768 blocks, the volume the guard computes lies between 0 and the
    number of blocks, so the volume check does not refuse it: with a
    connected world it always reaches the gateway with the fill of the
    full region, in whatever order its corners are given. *)
Theorem small_region_never_refused (createErrorResponse : string -> Result)
    (world : world.t) (a : args.t) (g : gateway reply) (s : gw_state g) :
  is_build a ->
  in_band (floor_coords a) ->
  block_count (floor_coords a) <= 32768 ->
  0 <= volume (floor_coords a) <= block_count (floor_coords a)
  /\ exists r rest,
       trace_of g (execute createErrorResponse (Some world) a) s
       = Called (outer_fill world a) r :: rest.
Proof.
  intros Hb Hy Hc.
  pose proof (volume_le_block_count (floor_coords a)) as Hv.
  split; [exact Hv |].
  assert (Hle : volume (floor_coords a) <= 32768) by lia.
  unfold trace_of.
  destruct (run_connected_cases createErrorResponse world a g s Hb Hy Hle)
    as [[e H] | [[n [_ H]] | [[n [m [_ [_ H]]]] | [n [e [_ [_ H]]]]]]];
    rewrite H; simpl; eauto.
Qed.

Lemma small_region_never_refused_witness :
  0 <= volume (floor_coords (swap_corners stone_cube))
    <= block_count (floor_coords (swap_corners stone_cube))
  /\ exists r rest,
       trace_of scripted
         (execute plain_error (Some a_world) (swap_corners stone_cube))
         [Fulfilled 1331]
       = Called (outer_fill a_world (swap_corners stone_cube)) r :: rest.
Proof.
  apply (small_region_never_refused plain_error a_world
           (swap_corners stone_cube) scripted [Fulfilled 1331]).
  - reflexivity.
  - vm_compute. intuition discriminate.
  - vm_compute. discriminate.
Defined.

(** X6.  For a request that issues any fill and whose corner 2 is not
    below corner 1 on any axis, the volume the guard computed is the
    number of blocks of the region, so the cap holds: the fill covers at
    most 32768 blocks. *)
Theorem cap_holds_for_ascending (createErrorResponse : string -> Result)
    (this_world : option world.t) (a : args.t)
    (g : gateway reply) (s : gw_state g) :
  ascending (floor_coords a) ->
  trace_of g (execute createErrorResponse this_world a) s <> [] ->
  volume (floor_coords a) = block_count (floor_coords a)
  /\ block_count (floor_coords a) <= 32768.
Proof.
  intros [Hx [Hy Hz]] Ht.
  assert (Hv : volume (floor_coords a) <= 32768).
  { unfold trace_of in Ht.
    destruct ((default "build" (args.action a) =? "build")%string) eqn:Hact.
    - apply String.eqb_eq in Hact.
      destruct (run_guarded_cases createErrorResponse this_world a g s Hact)
        as [[_ H] | [[_ [_ H]] | [[_ [_ [_ H]]] | [_ [Hv _]]]]];
        try (rewrite H in Ht; simpl in Ht; congruence).
      exact Hv.
    - rewrite (action_not_build _ _ _ Hact) in Ht. simpl in Ht. congruence. }
  destruct (volume_of_floored_corners a) as [_ Heq].
  cbv zeta in Heq. rewrite <- (Heq Hx Hy Hz). auto.
Qed.

Lemma cap_holds_for_ascending_witness :
  volume (floor_coords stone_cube) = block_count (floor_coords stone_cube)
  /\ block_count (floor_coords stone_cube) <= 32768.
Proof.
  apply (cap_holds_for_ascending plain_error (Some a_world) stone_cube
           scripted [Fulfilled 1331]).
  - vm_compute. intuition discriminate.
  - vm_compute. discriminate.
Defined.

(** X7.  On safe integer coordinates, when a region has an interior the
    two corners of the air fill lie strictly inside the box, off its
    faces: the shell is one block thick on every side.  The air fill
    covers [(sx-2) * (sy-2) * (sz-2)] blocks for spans [sx], [sy], [sz],
    fewer than the box, and stays within Y -63..319 when the box is in the
    height band. *)
Theorem interior_inside_box (c : coords.t) :
  safe_coords c ->
  has_interior c = true ->
  strictly_inside c (inner1 c)
  /\ strictly_inside c (inner2 c)
  /\ blocks_between (inner1 c) (inner2 c)
     = (span (coords.x1 c) (coords.x2 c) - 2)
       * (span (coords.y1 c) (coords.y2 c) - 2)
       * (span (coords.z1 c) (coords.z2 c) - 2)
  /\ 0 < blocks_between (inner1 c) (inner2 c) < block_count c
  /\ (in_band c -> -63 <= vy (inner1 c) /\ vy (inner2 c) <= 319).
Proof.
  intros Hsafe Hi. apply (has_interior_spans c Hsafe) in Hi.
  destruct Hi as [Hx [Hy Hz]].
  destruct (inner_corners_exact c Hsafe) as [H1 H2]. rewrite H1, H2.
  unfold strictly_inside, blocks_between, block_count, in_band, span in *.
  cbn [vx vy vz].
  split; [lia |]. split; [lia |].
  assert (Heq : forall p q, 3 <= Z.max p q - Z.min p q + 1 ->
                  Z.max (Z.min p q + 1) (Z.max p q - 1)
                  - Z.min (Z.min p q + 1) (Z.max p q - 1) + 1
                  = Z.max p q - Z.min p q + 1 - 2) by (intros; lia).
  rewrite !Heq by assumption.
  split; [reflexivity |]. split; [| lia].
  set (sx := Z.max (coords.x1 c) (coords.x2 c)
             - Z.min (coords.x1 c) (coords.x2 c) + 1) in *.
  set (sy := Z.max (coords.y1 c) (coords.y2 c)
             - Z.min (coords.y1 c) (coords.y2 c) + 1) in *.
  set (sz := Z.max (coords.z1 c) (coords.z2 c)
             - Z.min (coords.z1 c) (coords.z2 c) + 1) in *.
  split.
  - apply Z.mul_pos_pos; [apply Z.mul_pos_pos |]; lia.
  - assert (H3 : (sx - 2) * (sy - 2) < sx * sy) by nia.
    assert (H4 : 0 < (sx - 2) * (sy - 2)) by (apply Z.mul_pos_pos; lia).
    nia.
Qed.

Lemma interior_inside_box_witness :
  strictly_inside (floor_coords glass_shell)
                  (inner1 (floor_coords glass_shell))
  /\ strictly_inside (floor_coords glass_shell)
                     (inner2 (floor_coords glass_shell))
  /\ blocks_between (inner1 (floor_coords glass_shell))
                    (inner2 (floor_coords glass_shell)) = 729.
Proof.
  assert (Hsafe : safe_coords (floor_coords glass_shell))
    by (vm_compute; intuition discriminate).
  destruct (interior_inside_box (floor_coords glass_shell) Hsafe eq_refl)
    as [H1 [H2 [H3 _]]].
  split; [exact H1 |]. split; [exact H2 |]. rewrite H3. reflexivity.
Defined.

(** X8.  The hollow plan does not depend on the order of the corners:
    exchanging them exchanges the floored corners, and leaves the interior
    test, the two corners of the air fill, the height-band check and the
    number of blocks as they were. *)
Theorem interior_ignores_corner_order (a : args.t) :
  let c := floor_coords a in
  floor_coords (swap_corners a) = exchanged c
  /\ has_interior (exchanged c) = has_interior c
  /\ inner1 (exchanged c) = inner1 c
  /\ inner2 (exchanged c) = inner2 c
  /\ y_out_of_range (exchanged c) = y_out_of_range c
  /\ block_count (exchanged c) = block_count c
  /\ forall world, inner_fill world (swap_corners a) = inner_fill world a.
Proof.
  cbv zeta.
  assert (Hs : floor_coords (swap_corners a) = exchanged (floor_coords a))
    by reflexivity.
  split; [exact Hs |]. unfold inner_fill. cbv zeta. rewrite Hs.
  unfold has_interior, inner1, inner2, y_out_of_range, block_count, span,
    exchanged.
  cbn [coords.x1 coords.y1 coords.z1 coords.x2 coords.y2 coords.z2 vx vy vz].
  rewrite (Z.min_comm (coords.x2 _)), (Z.min_comm (coords.y2 _)),
    (Z.min_comm (coords.z2 _)), (Z.max_comm (coords.x2 _)),
    (Z.max_comm (coords.y2 _)), (Z.max_comm (coords.z2 _)).
  repeat split.
  destruct (coords.y1 (floor_coords a) <? -64),
    (coords.y1 (floor_coords a) >? 320),
    (coords.y2 (floor_coords a) <? -64),
    (coords.y2 (floor_coords a) >? 320); reflexivity.
Qed.

Lemma includes_colon_prefixed (m : string) :
  includes ":" ("minecraft:" ++ m) = true.
Proof.
  apply includes_colon.
  change (list_ascii_of_string ("minecraft:" ++ m))
    with (list_ascii_of_string "minecraft"
          ++ ":"%char :: list_ascii_of_string m)%list.
  apply in_or_app. right. left. reflexivity.
Qed.

(** X9.  The identifier submitted for a material always has a namespace
    separator; a material is left as it is exactly when it has one
    already, so normalizing twice is normalizing once, and a second
    [minecraft:] is never put before a namespaced name. *)
Theorem normalize_blockId_namespaced (m : string) :
  includes ":" (normalize_blockId m) = true
  /\ normalize_blockId (normalize_blockId m) = normalize_blockId m
  /\ (normalize_blockId m = m <-> In ":"%char (list_ascii_of_string m))
  /\ (~ In ":"%char (list_ascii_of_string m) ->
      normalize_blockId m = "minecraft:" ++ m).
Proof.
  assert (Hin : includes ":" (normalize_blockId m) = true).
  { unfold normalize_blockId. destruct (includes ":" m) eqn:Hm; simpl.
    - exact Hm.
    - apply includes_colon_prefixed. }
  split; [exact Hin |]. split; [| split].
  - unfold normalize_blockId at 1. rewrite Hin. reflexivity.
  - rewrite <- includes_colon. unfold normalize_blockId.
    destruct (includes ":" m) eqn:Hm; simpl.
    + split; reflexivity.
    + split; [| discriminate]. intros H.
      apply (f_equal String.length) in H. simpl in H. lia.
  - intros Hno. apply includes_colon_false in Hno.
    unfold normalize_blockId. rewrite Hno. reflexivity.
Qed.

Lemma normalize_blockId_namespaced_witness :
  normalize_blockId "oak_planks" = "minecraft:" ++ "oak_planks".
Proof.
  apply (proj2 (proj2 (proj2 (normalize_blockId_namespaced "oak_planks")))).
  vm_compute. intuition discriminate.
Defined.

(** X10.  A build stops at the first fill the gateway rejects: in every
    run no call follows a rejected one.  In particular, when the fill of
    the full region is rejected it is the only call, also for a hollow
    build with an interior, and the outcome is the failure that carries
    the text of the error. *)
Theorem build_stops_at_rejection (createErrorResponse : string -> Result)
    (this_world : option world.t) (a : args.t)
    (g : gateway reply) (s : gw_state g) :
  stops_at_rejection
    (trace_of g (execute createErrorResponse this_world a) s) = true
  /\ forall world e s1,
       this_world = Some world ->
       is_build a ->
       in_band (floor_coords a) ->
       volume (floor_coords a) <= 32768 ->
       gw_respond g (outer_fill world a) s = (Rejected e, s1) ->
       run g (execute createErrorResponse this_world a) s
       = ([Called (outer_fill world a) (Rejected e)],
          Fulfilled (failure ("Building error: " ++ error_text e))).
Proof.
  unfold trace_of. split.
  - destruct ((default "build" (args.action a) =? "build")%string) eqn:Hact.
    + apply String.eqb_eq in Hact.
      destruct (run_guarded_cases createErrorResponse this_world a g s Hact)
        as [[_ H] | [[_ [_ H]] | [[_ [_ [_ H]]] | [Hy [Hv [world ->]]]]]];
        try (rewrite H; reflexivity).
      destruct (run_connected_cases createErrorResponse world a g s Hact Hy Hv)
        as [[e H] | [[n [_ H]] | [[n [m [_ [_ H]]]] | [n [e [_ [_ H]]]]]]];
        rewrite H; reflexivity.
    + rewrite (action_not_build _ _ _ Hact). reflexivity.
  - intros world e s1 -> Hb Hy Hv H1.
    apply y_out_of_range_false in Hy. apply volume_gtb_false in Hv.
    rewrite (execute_validated _ (Some world) a Hb Hy Hv). cbv zeta.
    unfold outer_fill in H1. cbv zeta in H1.
    rewrite (run_outer_rejected g world _ _ _ s s1 e H1). reflexivity.
Qed.

Lemma build_stops_at_rejection_witness :
  run scripted (execute plain_error (Some a_world) glass_shell)
      [Rejected (ErrorObject "timeout"); Fulfilled 729]
  = ([Called (outer_fill a_world glass_shell)
             (Rejected (ErrorObject "timeout"))],
     Fulfilled (failure ("Building error: "
                         ++ error_text (ErrorObject "timeout")))).
Proof.
  apply (proj2 (build_stops_at_rejection plain_error (Some a_world)
                  glass_shell scripted
                  [Rejected (ErrorObject "timeout"); Fulfilled 729])
               a_world (ErrorObject "timeout") [Fulfilled 729]).
  - reflexivity.
  - reflexivity.
  - vm_compute. intuition discriminate.
  - vm_compute. discriminate.
  - reflexivity.
Defined.

End BuildCubeMore.

(** ** Further properties of world *)

Module WorldToolMore.
Import WorldTool WorldToolSpec WorldToolTerms.

Lemma Qle_bool_true (a b : Q) : (a <= b)%Q -> Qle_bool a b = true.
Proof. apply Qle_bool_iff. Qed.

Lemma Qle_bool_false (a b : Q) : (b < a)%Q -> Qle_bool a b = false.
Proof.
  intros H. destruct (Qle_bool a b) eqn:E; [| reflexivity].
  apply Qle_bool_iff in E. lra.
Qed.

Ltac settle_bounds :=
  unfold Qlt_bool;
  repeat match goal with
         | |- context [Qle_bool ?a ?b] =>
             first [ rewrite (Qle_bool_true a b) by lra
                   | rewrite (Qle_bool_false a b) by lra ]
         end;
  cbn [andb negb].

(** X11.  The time descriptions split the ticks into adjacent ranges with
    no gap: Dawn from 0, Morning from 1000, Noon from 5000, Afternoon from
    7000, Dusk from 11000, Night from 13000, Midnight from 17000 up to
    19000, each lower bound included and upper bound excluded.  Late Night
    is every other value: 19000 and above, and also the negative ones. *)
Theorem time_description_ranges (t : Q) :
  (getTimeDescription t = "Dawn" <-> (0 <= t < 1000)%Q)
  /\ (getTimeDescription t = "Morning" <-> (1000 <= t < 5000)%Q)
  /\ (getTimeDescription t = "Noon" <-> (5000 <= t < 7000)%Q)
  /\ (getTimeDescription t = "Afternoon" <-> (7000 <= t < 11000)%Q)
  /\ (getTimeDescription t = "Dusk" <-> (11000 <= t < 13000)%Q)
  /\ (getTimeDescription t = "Night" <-> (13000 <= t < 17000)%Q)
  /\ (getTimeDescription t = "Midnight" <-> (17000 <= t < 19000)%Q)
  /\ (getTimeDescription t = "Late Night" <-> (t < 0 \/ 19000 <= t)%Q).
Proof.
  unfold getTimeDescription.
  destruct (Qlt_le_dec t 0) as [H0 | H0];
    [settle_bounds;
     repeat split; intros; try discriminate; try lra; auto |].
  destruct (Qlt_le_dec t 1000) as [H1 | H1];
    [settle_bounds;
     repeat split; intros; try discriminate; try lra; auto |].
  destruct (Qlt_le_dec t 5000) as [H2 | H2];
    [settle_bounds;
     repeat split; intros; try discriminate; try lra; auto |].
  destruct (Qlt_le_dec t 7000) as [H3 | H3];
    [settle_bounds;
     repeat split; intros; try discriminate; try lra; auto |].
  destruct (Qlt_le_dec t 11000) as [H4 | H4];
    [settle_bounds;
     repeat split; intros; try discriminate; try lra; auto |].
  destruct (Qlt_le_dec t 13000) as [H5 | H5];
    [settle_bounds;
     repeat split; intros; try discriminate; try lra; auto |].
  destruct (Qlt_le_dec t 17000) as [H6 | H6];
    [settle_bounds;
     repeat split; intros; try discriminate; try lra; auto |].
  destruct (Qlt_le_dec t 19000) as [H7 | H7];
    settle_bounds;
    repeat split; intros; try discriminate; try lra; auto.
Qed.

Ltac decide_tests :=
  repeat match goal with
         | |- context [(?x =? ?y)%string] =>
             let v := eval vm_compute in (x =? y)%string in
             match v with
             | true => change (x =? y)%string with true
             | false => change (x =? y)%string with false
             end
         end;
  cbv iota.

Ltac answer_calls :=
  repeat (match goal with
          | |- context [gw_respond ?g ?c ?s] =>
              destruct (gw_respond g c s) as [[? | ?] ?]
          end; simpl).

(** Under a [try] whose handler returns, a plain program issues no call
    after a rejected one. *)
Lemma plain_stops_at_rejection {call : Type} {reply : call -> Type}
    {A : Type} (g : gateway reply) (p : async reply A)
    (handler : thrown -> A) :
  plain p ->
  forall s : gw_state g,
    stops_at_rejection
      (fst (run g (try_catch p (fun e => Return (handler e))) s)) = true.
Proof.
  intros Hp. induction Hp as [v | c k Hrej Hful IH]; intros s; simpl.
  - reflexivity.
  - destruct (gw_respond g c s) as [[v | e] s1].
    + specialize (IH v s1).
      destruct (run g (try_catch (k (Fulfilled v))
                                 (fun e => Return (handler e))) s1)
        as [trace out].
      simpl in *. destruct trace; [reflexivity | exact IH].
    + rewrite Hrej. reflexivity.
Qed.

Section Tool.
Variable SequenceStep : Type.
Variable CommandResult : Type.
Variable string_of_number : Q -> string.
Variable string_of_weather : WeatherType.t -> string.
Variable Date_now : Q.
Variable createErrorResponse : string -> Result CommandResult.
Variable executeSequence :
  list SequenceStep -> async (reply CommandResult) (Result CommandResult).

Let tool (this_world : option world.t) (a : args.t SequenceStep)
  : async (reply CommandResult) (Result CommandResult) :=
  execute SequenceStep CommandResult string_of_number string_of_weather
          Date_now createErrorResponse executeSequence this_world a.

Let done (action : string) (res : result CommandResult) (msg : string)
  : Result CommandResult :=
  {| success := true;
     message := msg;
     data := Some {| data.action := action;
                     data.result := res;
                     data.timestamp := Date_now |} |}.

Lemma truthy_absent (o : option string) :
  absent o -> truthy_string o = false.
Proof. intros [-> | ->]; reflexivity. Qed.

Lemma truthy_present (m : string) :
  m <> "" -> truthy_string (Some m) = true.
Proof.
  intros H. unfold truthy_string.
  destruct (String.eqb_spec m ""); [contradiction | reflexivity].
Qed.

(** X12.  An action that is none of the eleven names of the [switch],
    compared exactly, is refused with [Unknown action: <action>] and no
    gateway call. *)
Theorem unknown_action_refused (world : world.t) (a : args.t SequenceStep)
    (g : gateway (reply CommandResult)) (s : gw_state g) :
  ~ In (args.action a) known_actions ->
  run g (tool (Some world) a) s
  = ([], Fulfilled (failure CommandResult
                            ("Unknown action: " ++ args.action a))).
Proof.
  intros Hno. unfold tool, execute, dispatch. cbv zeta.
  repeat match goal with
         | |- context [(args.action a =? ?lit)%string] =>
             replace (args.action a =? lit)%string with false
               by (symmetry; apply String.eqb_neq; intros E; apply Hno;
                   rewrite E; simpl; tauto)
         end.
  reflexivity.
Qed.

(** X13.  An action whose required field is missing is refused before any
    gateway call: [set_time] without a time, [set_weather] without a
    weather or with an empty one, [send_message] and [run_command]
    likewise, and [sequence] without steps, which is answered by
    [createErrorResponse]. *)
Theorem missing_field_refused (world : world.t) (a : args.t SequenceStep)
    (g : gateway (reply CommandResult)) (s : gw_state g) :
  (args.action a = "set_time" -> args.time a = None ->
   run g (tool (Some world) a) s
   = ([], Fulfilled (failure CommandResult "Time required for set_time")))
  /\ (args.action a = "set_weather" -> absent (args.weather a) ->
      run g (tool (Some world) a) s
      = ([], Fulfilled (failure CommandResult
                                "Weather required for set_weather")))
  /\ (args.action a = "send_message" -> absent (args.message a) ->
      run g (tool (Some world) a) s
      = ([], Fulfilled (failure CommandResult
                                "Message required for send_message")))
  /\ (args.action a = "run_command" -> absent (args.command a) ->
      run g (tool (Some world) a) s
      = ([], Fulfilled (failure CommandResult
                                "Command required for run_command")))
  /\ (args.action a = "sequence" -> args.steps a = None ->
      run g (tool (Some world) a) s
      = ([], Fulfilled (createErrorResponse
                          "steps array is required for sequence action"))).
Proof.
  unfold tool, execute, dispatch. cbv zeta.
  split; [| split; [| split; [| split]]]; intros Hact Hmiss; rewrite Hact;
    decide_tests.
  - rewrite Hmiss. reflexivity.
  - rewrite (truthy_absent _ Hmiss). reflexivity.
  - rewrite (truthy_absent _ Hmiss). reflexivity.
  - rewrite (truthy_absent _ Hmiss). reflexivity.
  - rewrite Hmiss. reflexivity.
Qed.

(** X14.  [set_time] has no range check of its own: whatever the time
    given, zero, negative or beyond 24000, exactly one call is issued,
    [setTimeOfDay] with that value, and when the gateway fulfils it the
    outcome is a success whose message gives the value and its
    description. *)
Theorem set_time_forwards_any_value (world : world.t)
    (a : args.t SequenceStep) (t : Q)
    (g : gateway (reply CommandResult)) (s : gw_state g) :
  args.action a = "set_time" ->
  args.time a = Some t ->
  map call_of (trace_of g (tool (Some world) a) s) = [setTimeOfDay world t]
  /\ forall s1,
       gw_respond g (setTimeOfDay world t) s = (Fulfilled tt, s1) ->
       outcome_of g (tool (Some world) a) s
       = Fulfilled (done "set_time" undefined
                      ("Time set to " ++ string_of_number t ++ " ticks ("
                       ++ getTimeDescription t ++ ")")).
Proof.
  intros Hact Ht. unfold trace_of, outcome_of, tool, execute, dispatch.
  cbv zeta. rewrite Hact, Ht. decide_tests. simpl.
  destruct (gw_respond g (setTimeOfDay world t) s) as [[[] | e] s1]; simpl.
  - split; [reflexivity |]. intros _ _. reflexivity.
  - split; [reflexivity |]. intros s2 H. discriminate.
Qed.

(** X15.  [get_time] asks the gateway three times, for the time of day,
    the day and the current tick, in this order; when the three calls are
    fulfilled the outcome carries the three answers, with the description
    of the time of day. *)
Theorem get_time_three_calls (world : world.t) (a : args.t SequenceStep)
    (g : gateway (reply CommandResult)) (s s1 s2 s3 : gw_state g)
    (time day tick : Q) :
  args.action a = "get_time" ->
  gw_respond g (getTimeOfDay world) s = (Fulfilled time, s1) ->
  gw_respond g (getDay world) s1 = (Fulfilled day, s2) ->
  gw_respond g (getCurrentTick world) s2 = (Fulfilled tick, s3) ->
  run g (tool (Some world) a) s
  = ([Called (getTimeOfDay world) (Fulfilled time);
      Called (getDay world) (Fulfilled day);
      Called (getCurrentTick world) (Fulfilled tick)],
     Fulfilled (done "get_time"
                  (timeResult time day tick (getTimeDescription time))
                  ("Current time: " ++ string_of_number time ++ " ticks ("
                   ++ getTimeDescription time ++ ") on day "
                   ++ string_of_number day))).
Proof.
  intros Hact H1 H2 H3. unfold tool, execute, dispatch.
  cbv zeta. rewrite Hact. decide_tests. simpl.
  rewrite H1. simpl. rewrite H2. simpl. rewrite H3. reflexivity.
Qed.

(** X16.  [get_world_info] and [get_connection_info] never call the
    gateway: they answer from the properties of the connected world
    object, and always succeed. *)
Theorem info_actions_call_nothing (world : world.t)
    (a : args.t SequenceStep)
    (g : gateway (reply CommandResult)) (s : gw_state g) :
  (args.action a = "get_world_info" ->
   run g (tool (Some world) a) s
   = ([], Fulfilled
            (done "get_world_info"
               (worldInfo (world.name world) (world.connectedAt world)
                          (world.averagePing world) (world.maxPlayers world)
                          (world.isValid world))
               ("World info retrieved: " ++ world.name world))))
  /\ (args.action a = "get_connection_info" ->
      run g (tool (Some world) a) s
      = ([], Fulfilled
               (done "get_connection_info"
                  (connectionInfo (world.averagePing world)
                                  (world.connectedAt world)
                                  (world.maxPlayers world)
                                  (world.isValid world))
                  "Connection info retrieved"))).
Proof.
  unfold tool, execute, dispatch. cbv zeta.
  split; intros Hact; rewrite Hact; decide_tests; reflexivity.
Qed.

(** X17.  The reading actions change nothing: whatever the gateway
    answers, a [get_...] action issues only reading calls, never
    [setTimeOfDay], [setWeather], [sendMessage] or [runCommand], and at
    most three of them. *)
Theorem queries_only_read (world : world.t) (a : args.t SequenceStep)
    (g : gateway (reply CommandResult)) (s : gw_state g) :
  In (args.action a) query_actions ->
  forallb is_query (map call_of (trace_of g (tool (Some world) a) s)) = true
  /\ (length (trace_of g (tool (Some world) a) s) <= 3)%nat.
Proof.
  unfold query_actions. simpl.
  intros [H | [H | [H | [H | [H | [H | []]]]]]];
    unfold trace_of, tool, execute, dispatch; cbv zeta; rewrite <- H;
    decide_tests; simpl; answer_calls; split; (reflexivity || lia).
Qed.

(** X18.  An action the tool runs itself (any but [sequence]) stops at
    the first call the gateway rejects: no call follows a rejected one,
    so [get_time] does not ask for the day once the time of day failed. *)
Theorem world_stops_at_rejection (this_world : option world.t)
    (a : args.t SequenceStep)
    (g : gateway (reply CommandResult)) (s : gw_state g) :
  args.action a <> "sequence" ->
  stops_at_rejection (trace_of g (tool this_world a) s) = true.
Proof.
  intros Hseq. unfold trace_of, tool, execute.
  destruct this_world as [world |]; [| reflexivity].
  apply (plain_stops_at_rejection g _
           (fun error => failure CommandResult
                           ("World management error: "
                            ++ error_text error))).
  apply WorldToolProps.plain_dispatch. exact Hseq.
Qed.

(** X19.  The message of a successful [set_weather] repeats the weather
    string as it was given, not the type it was normalized to, and names
    the duration only when one was given and is not zero; the gateway
    receives the duration as given, zero included. *)
Theorem set_weather_reports_input (world : world.t)
    (a : args.t SequenceStep) (weather : string)
    (g : gateway (reply CommandResult)) (s s1 : gw_state g) :
  args.action a = "set_weather" ->
  args.weather a = Some weather ->
  weather <> "" ->
  gw_respond g (setWeather world (normalizeWeatherType weather)
                           (args.duration a)) s
  = (Fulfilled tt, s1) ->
  run g (tool (Some world) a) s
  = ([Called (setWeather world (normalizeWeatherType weather)
                         (args.duration a)) (Fulfilled tt)],
     Fulfilled
       (done "set_weather" undefined
          match args.duration a with
          | Some d =>
              if Qeq_bool d 0 then "Weather set to " ++ weather
              else "Weather set to " ++ weather ++ " for "
                   ++ string_of_number d ++ " ticks"
          | None => "Weather set to " ++ weather
          end)).
Proof.
  intros Hact Hw Hne Hr. unfold tool, execute.
  rewrite (WorldToolProps.dispatch_set_weather
             SequenceStep CommandResult string_of_number string_of_weather
             Date_now createErrorResponse executeSequence
             world a weather Hact Hw Hne).
  simpl. rewrite Hr. simpl. unfold done, truthy_number.
  destruct (args.duration a) as [d |]; [| reflexivity].
  destruct (Qeq_bool d 0); reflexivity.
Qed.

(** X20.  [send_message] and [run_command] hand their text to the gateway
    as it is: with a message (a command) that is not empty exactly one
    call is issued, [sendMessage] with the message and the target as
    given, missing or empty included, or [runCommand] with the command;
    a fulfilled [runCommand] makes a success whose result is the
    gateway's answer. *)
Theorem texts_forwarded_verbatim (world : world.t)
    (a : args.t SequenceStep) (text : string)
    (g : gateway (reply CommandResult)) (s : gw_state g) :
  text <> "" ->
  (args.action a = "send_message" -> args.message a = Some text ->
   map call_of (trace_of g (tool (Some world) a) s)
   = [sendMessage world text (args.target a)])
  /\ (args.action a = "run_command" -> args.command a = Some text ->
      map call_of (trace_of g (tool (Some world) a) s)
      = [runCommand world text]
      /\ forall r s1,
           gw_respond g (runCommand world text) s = (Fulfilled r, s1) ->
           outcome_of g (tool (Some world) a) s
           = Fulfilled (done "run_command" (commandResult r)
                          ("Command executed: " ++ text))).
Proof.
  intros Hne. unfold trace_of, outcome_of, tool, execute, dispatch.
  cbv zeta. split; intros Hact Hm; rewrite Hact, Hm; decide_tests;
    rewrite (truthy_present _ Hne); simpl.
  - destruct (gw_respond g (sendMessage world text (args.target a)) s)
      as [[[] | e] s1]; reflexivity.
  - destruct (gw_respond g (runCommand world text) s)
      as [[r | e] s1]; simpl.
    + split; [reflexivity |]. intros r' s2 H. injection H as <- _.
      reflexivity.
    + split; [reflexivity |]. intros r' s2 H. discriminate.
Qed.

End Tool.
Lemma unknown_action_refused_witness :
  run calm
      (execute unit unit show_number show_weather 0%Q plain_error no_sequence
               (Some BuildCubeSpec.a_world) (action_only "SET_TIME")) tt
  = ([], Fulfilled (failure unit ("Unknown action: " ++ "SET_TIME"))).
Proof.
  apply (unknown_action_refused unit unit show_number show_weather 0%Q
           plain_error no_sequence BuildCubeSpec.a_world
           (action_only "SET_TIME") calm tt).
  vm_compute. intuition discriminate.
Defined.

Lemma missing_field_refused_witness :
  run calm
      (execute unit unit show_number show_weather 0%Q plain_error no_sequence
               (Some BuildCubeSpec.a_world) (with_message (Some "") None)) tt
  = ([], Fulfilled (failure unit "Message required for send_message")).
Proof.
  apply (proj1 (proj2 (proj2
           (missing_field_refused unit unit show_number show_weather 0%Q
              plain_error no_sequence BuildCubeSpec.a_world
              (with_message (Some "") None) calm tt)))).
  - reflexivity.
  - right. reflexivity.
Defined.

Lemma set_time_forwards_any_value_witness :
  map call_of
      (trace_of calm
         (execute unit unit show_number show_weather 0%Q plain_error
                  no_sequence (Some BuildCubeSpec.a_world)
                  (with_time "set_time" (Some 25000%Q))) tt)
  = [setTimeOfDay BuildCubeSpec.a_world 25000%Q].
Proof.
  apply (proj1 (set_time_forwards_any_value unit unit show_number
                  show_weather 0%Q plain_error no_sequence
                  BuildCubeSpec.a_world
                  (with_time "set_time" (Some 25000%Q)) 25000%Q calm tt
                  eq_refl eq_refl)).
Defined.

Lemma get_time_three_calls_witness :
  run calm
      (execute unit unit show_number show_weather 0%Q plain_error no_sequence
               (Some BuildCubeSpec.a_world) (action_only "get_time")) tt
  = ([Called (getTimeOfDay BuildCubeSpec.a_world) (Fulfilled 6000%Q);
      Called (getDay BuildCubeSpec.a_world) (Fulfilled 3%Q);
      Called (getCurrentTick BuildCubeSpec.a_world) (Fulfilled 78000%Q)],
     Fulfilled
       {| success := true;
          message := "Current time: " ++ show_number 6000 ++ " ticks ("
                     ++ getTimeDescription 6000 ++ ") on day "
                     ++ show_number 3;
          data := Some {| data.action := "get_time";
                          data.result :=
                            timeResult 6000%Q 3%Q 78000%Q
                                       (getTimeDescription 6000);
                          data.timestamp := 0%Q |} |}).
Proof.
  apply (get_time_three_calls unit unit show_number show_weather 0%Q
           plain_error no_sequence BuildCubeSpec.a_world
           (action_only "get_time") calm tt tt tt tt);
    reflexivity.
Defined.

Lemma queries_only_read_witness :
  forallb is_query
    (map call_of
       (trace_of calm
          (execute unit unit show_number show_weather 0%Q plain_error
                   no_sequence (Some BuildCubeSpec.a_world)
                   (action_only "get_players")) tt)) = true
  /\ (length
        (trace_of calm
           (execute unit unit show_number show_weather 0%Q plain_error
                    no_sequence (Some BuildCubeSpec.a_world)
                    (action_only "get_players")) tt) <= 3)%nat.
Proof.
  apply (queries_only_read unit unit show_number show_weather 0%Q
           plain_error no_sequence BuildCubeSpec.a_world
           (action_only "get_players") calm tt).
  vm_compute. tauto.
Defined.

Lemma world_stops_at_rejection_witness :
  stops_at_rejection
    (trace_of (failing unit "connection lost")
       (execute unit unit show_number show_weather 0%Q plain_error
                no_sequence (Some BuildCubeSpec.a_world)
                (action_only "get_time")) tt) = true.
Proof.
  apply (world_stops_at_rejection unit unit show_number show_weather 0%Q
           plain_error no_sequence (Some BuildCubeSpec.a_world)
           (action_only "get_time") (failing unit "connection lost") tt).
  discriminate.
Defined.

Lemma set_weather_reports_input_witness :
  run calm
      (execute unit unit show_number show_weather 0%Q plain_error no_sequence
               (Some BuildCubeSpec.a_world) (set_weather "snow" (Some 0%Q)))
      tt
  = ([Called (setWeather BuildCubeSpec.a_world WeatherType.Clear (Some 0%Q))
             (Fulfilled tt)],
     Fulfilled
       {| success := true;
          message := "Weather set to snow";
          data := Some {| data.action := "set_weather";
                          data.result := undefined;
                          data.timestamp := 0%Q |} |}).
Proof.
  apply (set_weather_reports_input unit unit show_number show_weather 0%Q
           plain_error no_sequence BuildCubeSpec.a_world
           (set_weather "snow" (Some 0%Q)) "snow" calm tt tt).
  - reflexivity.
  - reflexivity.
  - discriminate.
  - reflexivity.
Defined.

Lemma texts_forwarded_verbatim_witness :
  map call_of
      (trace_of calm
         (execute unit unit show_number show_weather 0%Q plain_error
                  no_sequence (Some BuildCubeSpec.a_world)
                  (with_command (Some "give @p diamond_sword"))) tt)
  = [runCommand BuildCubeSpec.a_world "give @p diamond_sword"].
Proof.
  destruct (texts_forwarded_verbatim unit unit show_number show_weather 0%Q
              plain_error no_sequence BuildCubeSpec.a_world
              (with_command (Some "give @p diamond_sword"))
              "give @p diamond_sword" calm tt) as [_ H].
  - discriminate.
  - destruct (H eq_refl eq_refl) as [Hc _]. exact Hc.
Defined.

End WorldToolMore.

(** ** Properties of the sequence step *)

Module WorldStepProps.
Import WorldTool WorldToolSpec WorldToolTerms WorldStep.

Section Tool.
Variable SequenceStep : Type.
Variable CommandResult : Type.
Variable string_of_number : Q -> string.
Variable string_of_weather : WeatherType.t -> string.
Variable Date_now : Q.
Variable createErrorResponse : string -> Result CommandResult.
Variable executeSequence :
  list SequenceStep -> async (reply CommandResult) (Result CommandResult).
Variable step_type : SequenceStep -> string.
Variable step_props : SequenceStep -> props.t SequenceStep.
Variable super_executeSequenceStep :
  SequenceStep -> Z -> async (reply CommandResult) (Result CommandResult).

Let run_step (this_world : option world.t) (step : SequenceStep) (index : Z)
  : async (reply CommandResult) (Result CommandResult) :=
  executeSequenceStep SequenceStep CommandResult string_of_number
    string_of_weather Date_now createErrorResponse executeSequence
    step_type step_props super_executeSequenceStep this_world step index.

(** X21.  A step whose type is not [wait] is run as one action of the
    tool, with the step's own fields as its arguments: the action named
    by the step's type, or by the step's [action] property when it has
    one.  Such a step never throws, whatever the gateway does; without a
    connected world it fails with the connectivity message and no call;
    and a step whose type is none of the known actions fails with
    [Unknown action: <type>] and no call. *)
Theorem step_runs_as_action (this_world : option world.t)
    (step : SequenceStep) (index : Z)
    (g : gateway (reply CommandResult)) (s : gw_state g) :
  step_type step <> "wait" ->
  (exists r, outcome_of g (run_step this_world step index) s = Fulfilled r)
  /\ (this_world = None ->
      run g (run_step this_world step index) s
      = ([], Fulfilled
               (failure CommandResult
                  "World not available. Ensure Minecraft is connected.")))
  /\ (forall world,
        this_world = Some world ->
        props.action (step_props step) = None ->
        ~ In (step_type step) known_actions ->
        run g (run_step this_world step index) s
        = ([], Fulfilled (failure CommandResult
                                  ("Unknown action: " ++ step_type step))))
  /\ (forall action,
        props.action (step_props step) = Some action ->
        run_step this_world step index
        = execute SequenceStep CommandResult string_of_number
            string_of_weather Date_now createErrorResponse executeSequence
            this_world
            {| args.action := action;
               args.time := props.time (step_props step);
               args.weather := props.weather (step_props step);
               args.duration := props.duration (step_props step);
               args.message := props.message (step_props step);
               args.target := props.target (step_props step);
               args.command := props.command (step_props step);
               args.steps := props.steps (step_props step) |})
  /\ (props.action (step_props step) = None ->
      run_step this_world step index
      = execute SequenceStep CommandResult string_of_number
          string_of_weather Date_now createErrorResponse executeSequence
          this_world
          {| args.action := step_type step;
             args.time := props.time (step_props step);
             args.weather := props.weather (step_props step);
             args.duration := props.duration (step_props step);
             args.message := props.message (step_props step);
             args.target := props.target (step_props step);
             args.command := props.command (step_props step);
             args.steps := props.steps (step_props step) |}).
Proof.
  intros Hwait. unfold run_step, executeSequenceStep.
  destruct (String.eqb_spec (step_type step) "wait") as [E | _];
    [contradiction |].
  split; [| split; [| split; [| split]]].
  - apply WorldToolProps.world_settles.
  - intros ->. reflexivity.
  - intros world -> Hown Hno.
    assert (Hact : args.action (worldArgs SequenceStep step_type step_props
                                          step) = step_type step)
      by (unfold worldArgs; rewrite Hown; reflexivity).
    rewrite <- Hact.
    apply WorldToolMore.unknown_action_refused. rewrite Hact. exact Hno.
  - intros action Hown. unfold worldArgs. rewrite Hown. reflexivity.
  - intros Hown. unfold worldArgs. rewrite Hown. reflexivity.
Qed.

End Tool.

Lemma step_runs_as_action_witness :
  run calm
      (executeSequenceStep unit unit show_number show_weather 0%Q plain_error
         no_sequence (fun _ => "fly")
         (fun _ => props.make None None None None None None None None)
         (fun _ _ => Return (failure unit "waited"))
         (Some BuildCubeSpec.a_world) tt 0) tt
  = ([], Fulfilled (failure unit ("Unknown action: " ++ "fly")))
  /\ map call_of
       (trace_of calm
          (executeSequenceStep unit unit show_number show_weather 0%Q
             plain_error no_sequence (fun _ => "set_time")
             (fun _ => props.make None (Some 6000%Q) None None None None
                                  None None)
             (fun _ _ => Return (failure unit "waited"))
             (Some BuildCubeSpec.a_world) tt 0) tt)
     = [setTimeOfDay BuildCubeSpec.a_world 6000%Q].
Proof.
  split.
  - destruct (step_runs_as_action unit unit show_number show_weather 0%Q
                plain_error no_sequence (fun _ => "fly")
                (fun _ => props.make None None None None None None None None)
                (fun _ _ => Return (failure unit "waited"))
                (Some BuildCubeSpec.a_world) tt 0 calm tt)
      as [_ [_ [H _]]].
    + discriminate.
    + apply (H BuildCubeSpec.a_world eq_refl eq_refl).
      vm_compute. intuition discriminate.
  - destruct (step_runs_as_action unit unit show_number show_weather 0%Q
                plain_error no_sequence (fun _ => "set_time")
                (fun _ => props.make None (Some 6000%Q) None None None None
                                     None None)
                (fun _ _ => Return (failure unit "waited"))
                (Some BuildCubeSpec.a_world) tt 0 calm tt)
      as [_ [_ [_ [_ H]]]].
    + discriminate.
    + rewrite (H eq_refl). reflexivity.
Defined.

End WorldStepProps.
